(** * The product-description workflow of [app/routes/app._index.tsx]

    A shallow embedding of the route's [loader] and [action] handlers.
    JavaScript values are an inductive type with the language's own
    truthiness, property reads and string coercion; the handlers run in a
    small monad that records every outbound call and console line and that
    carries thrown exceptions, so that "what was called" and "what came
    back" are both visible in a result. *)

From Stdlib Require Import List String Ascii ZArith Lia Bool.
From Stdlib.Strings Require Import Byte.
From Stdlib Require Import DecimalString.
Import ListNotations.
Local Open Scope string_scope.

(* ------------------------------------------------------------------ *)
(** ** JavaScript values *)

(** What [JSON.parse] can produce, plus [undefined].  Numbers are kept as
    integers: the handlers only ever test a number for being zero and
    print it. *)
#[local] Set Warnings "-register-all".
Inductive value : Type :=
| VUndefined
| VNull
| VBool (b : bool)
| VNum (n : Z)
| VStr (s : string)
| VArr (items : list value)
| VObj (fields : list (string * value)).

(** [!!v] *)
Definition truthy (v : value) : bool :=
  match v with
  | VUndefined | VNull => false
  | VBool b => b
  | VNum n => negb (n =? 0)%Z
  | VStr s => negb (s =? "")
  | VArr _ | VObj _ => true
  end.

Inductive exn : Type :=
| TypeError
| Failure (reason : string).

Inductive outcome (A : Type) : Type :=
| Ok (a : A)
| Throw (e : exn).
Arguments Ok {A} a.
Arguments Throw {A} e.

(** Own-property lookup in a parsed object. *)
Fixpoint assoc (k : string) (fields : list (string * value)) : value :=
  match fields with
  | [] => VUndefined
  | (k', v) :: rest => if k =? k' then v else assoc k rest
  end.

Definition decimal (z : Z) : string := NilZero.string_of_int (Z.to_int z).

(** [v.k] for the property names the handlers read ([data], [product],
    [title], [content], [text], ...): none of them is inherited by
    arrays, strings, numbers or booleans, so only an object can answer
    with something else than [undefined]; reading off [null] or
    [undefined] throws. *)
Definition member (v : value) (k : string) : outcome value :=
  match v with
  | VUndefined | VNull => Throw TypeError
  | VObj fields => Ok (assoc k fields)
  | _ => Ok VUndefined
  end.

(** [v[i]] *)
Definition element (v : value) (i : nat) : outcome value :=
  match v with
  | VUndefined | VNull => Throw TypeError
  | VArr items => Ok (nth i items VUndefined)
  | VStr s =>
      Ok (match String.get i s with
          | Some c => VStr (String c "")
          | None => VUndefined
          end)
  | VObj fields => Ok (assoc (decimal (Z.of_nat i)) fields)
  | _ => Ok VUndefined
  end.

(** [`${v}`]: the string a template literal inserts.  Objects are taken
    without own [toString]/[valueOf] keys. *)
Fixpoint to_string (v : value) : string :=
  match v with
  | VUndefined => "undefined"
  | VNull => "null"
  | VBool true => "true"
  | VBool false => "false"
  | VNum n => decimal n
  | VStr s => s
  | VArr items =>
      String.concat ","
        (map (fun x => match x with
                       | VUndefined | VNull => ""
                       | _ => to_string x
                       end) items)
  | VObj _ => "[object Object]"
  end.

(** [Buffer.from(bytes).toString('base64')] *)
Definition base64_alphabet : list ascii :=
  list_ascii_of_string
    "ABCDEFGHIJKLMNOPQRSTUVWXYZabcdefghijklmnopqrstuvwxyz0123456789+/".

Definition sextet (n : N) : ascii := nth (N.to_nat n) base64_alphabet "="%char.

Fixpoint base64 (bytes : list byte) : string :=
  match bytes with
  | [] => ""
  | [a] =>
      let x := Byte.to_N a in
      String (sextet (N.shiftr x 2))
        (String (sextet (N.shiftl (N.land x 3) 4)) "==")
  | [a; b] =>
      let x := Byte.to_N a in
      let y := Byte.to_N b in
      String (sextet (N.shiftr x 2))
        (String (sextet (N.lor (N.shiftl (N.land x 3) 4) (N.shiftr y 4)))
           (String (sextet (N.shiftl (N.land y 15) 2)) "="))
  | a :: b :: c :: rest =>
      let x := Byte.to_N a in
      let y := Byte.to_N b in
      let z := Byte.to_N c in
      String (sextet (N.shiftr x 2))
        (String (sextet (N.lor (N.shiftl (N.land x 3) 4) (N.shiftr y 4)))
           (String (sextet (N.lor (N.shiftl (N.land y 15) 2) (N.shiftr z 6)))
              (String (sextet (N.land z 63)) (base64 rest))))
  end.

(* ------------------------------------------------------------------ *)
(** ** The outside world *)

(** The three documents sent through [admin.graphql]; the [first:]
    arguments are part of the query text. *)
Inductive query : Type :=
| ProductsQuery (first variants_first : nat)
| UpdateProductDescription (id descriptionHtml : value)
| ProductQuery (productId : value) (variants_first : nat).

Inductive request : Type :=
| GET (url : string)
| POST (url : string) (headers : list (string * string)) (body : value).

(** A [Response]: its status and what each way of reading its body
    gives. *)
Record response : Type := {
  status : Z;
  arrayBuffer : outcome (list byte);
  json_body : outcome value
}.

Definition ok (r : response) : bool :=
  ((200 <=? status r) && (status r <=? 299))%Z.

(** [admin]: the authenticated client [authenticate.admin(request)] hands
    to the handler.  [graphql] stands for the call followed by
    [.json()] on its reply. *)
Record Admin : Type := { graphql : query -> outcome value }.

Record World : Type := {
  fetch : request -> outcome response;
  CLAUDE_API_SECRET : option string
}.

Definition FormData : Type := list (string * string).

(** [formData.get(name)]: the first entry of that name, else [null]. *)
Fixpoint formData_get (name : string) (formData : FormData) : value :=
  match formData with
  | [] => VNull
  | (k, v) :: rest => if name =? k then VStr v else formData_get name rest
  end.

Inductive logged : Type :=
| LStr (s : string)
| LVal (v : value)
| LExn (e : exn).

Inductive event : Type :=
| EGraphql (q : query)
| EFetch (r : request)
| EConsoleError (args : list logged)
| EConsoleLog (args : list logged).

(* ------------------------------------------------------------------ *)
(** ** The handler monad: a log of events and a value or an exception *)

Definition M (A : Type) : Type := (list event * outcome A)%type.

Definition ret {A} (a : A) : M A := ([], Ok a).

Definition bind {A B} (m : M A) (f : A -> M B) : M B :=
  match m with
  | (t, Throw e) => (t, Throw e)
  | (t, Ok a) => let (t', r) := f a in ((t ++ t')%list, r)
  end.

Definition lift {A} (o : outcome A) : M A := ([], o).

Definition emit (e : event) : M unit := ([e], Ok tt).

(** [try { m } catch (e) { handler e }] *)
Definition try_catch {A} (m : M A) (handler : exn -> M A) : M A :=
  match m with
  | (t, Throw e) => let (t', r) := handler e in ((t ++ t')%list, r)
  | (t, Ok a) => (t, Ok a)
  end.

Declare Scope handler_scope.
Delimit Scope handler_scope with handler.
Notation "x <- m ;; k" := (bind m (fun x => k))
  (at level 61, m at next level, right associativity) : handler_scope.
Notation "m ;;; k" := (bind m (fun _ => k))
  (at level 61, right associativity) : handler_scope.
Local Open Scope handler_scope.

Definition admin_graphql (admin : Admin) (q : query) : M value :=
  emit (EGraphql q) ;;; lift (graphql admin q).

Definition world_fetch (world : World) (r : request) : M response :=
  emit (EFetch r) ;;; lift (fetch world r).

Definition console_error (args : list logged) : M unit :=
  emit (EConsoleError args).

Definition console_log (args : list logged) : M unit :=
  emit (EConsoleLog args).

(** [json(body, { status })] *)
Record reply : Type := { reply_status : Z; reply_body : value }.

Definition json (body : value) (st : Z) : reply :=
  {| reply_status := st; reply_body := body |}.

(* ------------------------------------------------------------------ *)
(** ** [loader] (lines 26-59) *)

Definition loader (admin : Admin) : M reply :=
  responseJson <- admin_graphql admin (ProductsQuery 20 5) ;;
  data <- lift (member responseJson "data") ;;
  products <- lift (member data "products") ;;
  edges <- lift (member products "edges") ;;
  ret (json (VObj [("products", edges)]) 200).

(* ------------------------------------------------------------------ *)
(** ** [action] (lines 61-208) *)

Definition LF : string := String (ascii_of_nat 10) "".

Definition placeholder_description : string :=
  "Failed to generate description. Let`s try use this one for demo purposes.".

Definition image_clause : string :=
  " Use the provided image for additional context.".

Definition messages_url : string := "https://api.anthropic.com/v1/messages".

(** The update branch, lines 71-102. *)
Definition publish (admin : Admin) (productId description : value) : M reply :=
  try_catch
    (productData <-
       admin_graphql admin (UpdateProductDescription productId description) ;;
     data <- lift (member productData "data") ;;
     productUpdate <- lift (member data "productUpdate") ;;
     product <- lift (member productUpdate "product") ;;
     url <- lift (member product "onlineStoreUrl") ;;
     onlineStoreUrl <-
       (if truthy url then ret url
        else
          data <- lift (member productData "data") ;;
          productUpdate <- lift (member data "productUpdate") ;;
          product <- lift (member productUpdate "product") ;;
          lift (member product "onlineStorePreviewUrl")) ;;
     ret (json (VObj [("success", VBool true);
                      ("onlineStoreUrl", onlineStoreUrl)]) 200))
    (fun e =>
       console_error [LExn e] ;;;
       ret (json (VObj [("error", VStr "Failed to update product description")])
              500)).

(** [edges.map(f)]: only an array has [map]. *)
Fixpoint map_outcome {A B} (f : A -> outcome B) (l : list A)
  : outcome (list B) :=
  match l with
  | [] => Ok []
  | x :: rest =>
      match f x with
      | Throw e => Throw e
      | Ok y =>
          match map_outcome f rest with
          | Throw e => Throw e
          | Ok ys => Ok (y :: ys)
          end
      end
  end.

Definition array_map {B} (v : value) (f : value -> outcome B)
  : outcome (list B) :=
  match v with
  | VArr items => map_outcome f items
  | _ => Throw TypeError
  end.

(** [`${edge.node.title} - $${edge.node.price}`] *)
Definition variant_entry (edge : value) : outcome string :=
  match member edge "node" with
  | Throw e => Throw e
  | Ok node =>
      match member node "title" with
      | Throw e => Throw e
      | Ok title =>
          match member edge "node" with
          | Throw e => Throw e
          | Ok node' =>
              match member node' "price" with
              | Throw e => Throw e
              | Ok price => Ok (to_string title ++ " - $" ++ to_string price)
              end
          end
      end
  end.

(** The template literal of lines 151-154. *)
Definition prompt_text (productTitle : value) (variants : list string)
    (imageUrl : value) : string :=
  "Generate an engaging product description for the following product:"
  ++ LF ++ "  Title: " ++ to_string productTitle
  ++ LF ++ "  Variants: " ++ String.concat ", " variants
  ++ LF ++ "  Please provide a compelling product description that highlights key features, benefits, and unique selling points. Ensure the description is SEO-friendly and approximately 150-200 words long."
  ++ (if truthy imageUrl then image_clause else "").

(** [requestData], lines 141-167. *)
Definition requestData (productTitle : value) (variants : list string)
    (imageUrl imageBase64 : value) : value :=
  VObj
    [("model", VStr "claude-3-opus-20240229");
     ("max_tokens", VNum 1000);
     ("system", VStr "You are a professional product copywriter specializing in creating compelling and SEO-friendly product descriptions.");
     ("messages",
      VArr
        [VObj
           [("role", VStr "user");
            ("content",
             VArr
               (VObj [("type", VStr "text");
                      ("text",
                       VStr (prompt_text productTitle variants imageUrl))]
                :: (if truthy imageBase64
                    then [VObj [("type", VStr "image");
                                ("source",
                                 VObj [("type", VStr "base64");
                                       ("media_type", VStr "image/jpeg");
                                       ("data", imageBase64)])]]
                    else [])))]])].

(** Lines 104-167: look the product up, fetch its image, build the
    request. *)
Definition compose_request (admin : Admin) (world : World) (productId : value)
  : M value :=
  productData <- admin_graphql admin (ProductQuery productId 5) ;;
  data <- lift (member productData "data") ;;
  product <- lift (member data "product") ;;
  productTitle <- lift (member product "title") ;;
  variantsField <- lift (member product "variants") ;;
  edges <- lift (member variantsField "edges") ;;
  variants <- lift (array_map edges variant_entry) ;;
  featuredImage <- lift (member product "featuredImage") ;;
  imageUrl <-
    lift (match featuredImage with
          | VUndefined | VNull => Ok VUndefined
          | _ => member featuredImage "url"
          end) ;;
  imageBase64 <-
    (if truthy imageUrl then
       imageResponse <- world_fetch world (GET (to_string imageUrl)) ;;
       imageBuffer <- lift (arrayBuffer imageResponse) ;;
       ret (VStr (base64 imageBuffer))
     else ret VUndefined) ;;
  ret (requestData productTitle variants imageUrl imageBase64).

Definition api_key (world : World) : string :=
  match CLAUDE_API_SECRET world with
  | Some k => if k =? "" then "" else k
  | None => ""
  end.

Definition messages_request (world : World) (body : value) : request :=
  POST messages_url
    [("Content-Type", "application/json");
     ("X-API-Key", api_key world);
     ("anthropic-version", "2023-06-01")]
    body.

Definition fallback_reply : reply :=
  json (VObj [("description", VStr placeholder_description)]) 200.

Definition generation_error_reply : reply :=
  json (VObj [("error",
               VStr "Failed to generate description. Please try again later.")])
    500.

(** The condition of line 191, with its short-circuits. *)
Definition unexpected_format (aiResponseJson : value) : outcome bool :=
  match member aiResponseJson "content" with
  | Throw e => Throw e
  | Ok content =>
      if negb (truthy content) then Ok true
      else
        match element content 0 with
        | Throw e => Throw e
        | Ok first =>
            if negb (truthy first) then Ok true
            else
              match member first "text" with
              | Throw e => Throw e
              | Ok text => Ok (negb (truthy text))
              end
        end
  end.

(** Lines 169-207: the call to the generation API and the reading of its
    reply. *)
Definition request_description (world : World) (body : value) : M reply :=
  try_catch
    (aiResponse <- world_fetch world (messages_request world body) ;;
     if negb (ok aiResponse) then
       console_error
         [LStr ("API request failed with status "
                ++ decimal (status aiResponse))] ;;;
       ret fallback_reply
     else
       aiResponseJson <- lift (json_body aiResponse) ;;
       console_log [LStr "AI response:"; LVal aiResponseJson] ;;;
       unexpected <- lift (unexpected_format aiResponseJson) ;;
       if unexpected then
         console_error [LStr "Unexpected response format from AI API"] ;;;
         ret fallback_reply
       else
         content <- lift (member aiResponseJson "content") ;;
         first <- lift (element content 0) ;;
         text <- lift (member first "text") ;;
         ret (json (VObj [("description", text)]) 200))
    (fun error =>
       console_error [LStr "Error generating description:"; LExn error] ;;;
       ret generation_error_reply).

(** The generate branch, lines 104-207. *)
Definition generate (admin : Admin) (world : World) (productId : value)
  : M reply :=
  body <- compose_request admin world productId ;;
  request_description world body.

Definition validation_reply : reply :=
  json (VObj [("error", VStr "Product ID is required")]) 400.

(** [v === s] for a string literal [s] *)
Definition is_string (v : value) (s : string) : bool :=
  match v with
  | VStr s' => s' =? s
  | _ => false
  end.

(** [action], entered with the [admin] client of line 62. *)
Definition action (admin : Admin) (world : World) (formData : FormData)
  : M reply :=
  let productId := formData_get "productId" formData in
  let action := formData_get "action" formData in
  if negb (truthy productId) then ret validation_reply
  else
    if is_string action "update" then
      let description := formData_get "description" formData in
      publish admin productId description
    else generate admin world productId.

(* ------------------------------------------------------------------ *)
(** ** The catalog behind [admin.graphql]

    The shop side of the three documents: what a store holding
    [catalog] answers.  A connection asked with [first: n] returns its
    first [n] nodes; a nullable field without a value is [null]. *)

Record Variant : Type := {
  variant_id : string;
  variant_title : string;
  variant_price : string
}.

Record Product : Type := {
  product_id : string;
  product_title : string;
  onlineStoreUrl : option string;
  onlineStorePreviewUrl : option string;
  featuredImage : option string;
  variants : list Variant;
  descriptionHtml : string
}.

Definition nullable (o : option string) : value :=
  match o with
  | Some s => VStr s
  | None => VNull
  end.

Definition image_node (o : option string) : value :=
  match o with
  | Some url => VObj [("url", VStr url)]
  | None => VNull
  end.

(** The selection [{ title price }] of the product query. *)
Definition variant_edge (v : Variant) : value :=
  VObj [("node", VObj [("title", VStr (variant_title v));
                       ("price", VStr (variant_price v))])].

(** The selection [{ id title price }] of the listing query. *)
Definition listed_variant_edge (v : Variant) : value :=
  VObj [("node", VObj [("id", VStr (variant_id v));
                       ("title", VStr (variant_title v));
                       ("price", VStr (variant_price v))])].

Definition connection {A} (edge : A -> value) (nodes : list A) : value :=
  VObj [("edges", VArr (map edge nodes))].

(** A product as seen through [variants(first: n)]. *)
Definition first_variants (n : nat) (p : Product) : Product :=
  {| product_id := product_id p;
     product_title := product_title p;
     onlineStoreUrl := onlineStoreUrl p;
     onlineStorePreviewUrl := onlineStorePreviewUrl p;
     featuredImage := featuredImage p;
     variants := firstn n (variants p);
     descriptionHtml := descriptionHtml p |}.

Definition product_node (p : Product) : value :=
  VObj [("title", VStr (product_title p));
        ("featuredImage", image_node (featuredImage p));
        ("variants", connection variant_edge (variants p))].

Definition listed_product_edge (p : Product) : value :=
  VObj [("node",
         VObj [("id", VStr (product_id p));
               ("title", VStr (product_title p));
               ("onlineStoreUrl", nullable (onlineStoreUrl p));
               ("featuredImage", image_node (featuredImage p));
               ("variants", connection listed_variant_edge (variants p));
               ("descriptionHtml", VStr (descriptionHtml p))])].

Definition updated_product_node (p : Product) : value :=
  VObj [("id", VStr (product_id p));
        ("onlineStoreUrl", nullable (onlineStoreUrl p));
        ("onlineStorePreviewUrl", nullable (onlineStorePreviewUrl p))].

(** The reply to the product query: the product, or [null] for an id
    that resolves to nothing. *)
Definition product_reply (p : option Product) : value :=
  VObj [("data",
         VObj [("product",
                match p with
                | Some p => product_node p
                | None => VNull
                end)])].

Definition update_reply (p : option Product) : value :=
  VObj [("data",
         VObj [("productUpdate",
                VObj [("product",
                       match p with
                       | Some p => updated_product_node p
                       | None => VNull
                       end)])])].

Definition products_reply (ps : list Product) : value :=
  VObj [("data",
         VObj [("products", connection listed_product_edge ps)])].

Definition find_product (catalog : list Product) (id : value) : option Product :=
  find (fun p => is_string id (product_id p)) catalog.

Definition shop (catalog : list Product) : Admin :=
  {| graphql := fun q =>
       match q with
       | ProductsQuery first variants_first =>
           Ok (products_reply
                 (map (first_variants variants_first) (firstn first catalog)))
       | ProductQuery productId variants_first =>
           Ok (product_reply
                 (option_map (first_variants variants_first)
                    (find_product catalog productId)))
       | UpdateProductDescription id _ =>
           Ok (update_reply (find_product catalog id))
       end |}.

(** One entry of the list after ["Variants: "]. *)
Definition variant_line (v : Variant) : string :=
  variant_title v ++ " - $" ++ variant_price v.

(** The prompt carried by a request body: [messages[0].content[0].text]. *)
Definition prompt_of (body : value) : option string :=
  match body with
  | VObj fields =>
      match assoc "messages" fields with
      | VArr (VObj message :: _) =>
          match assoc "content" message with
          | VArr (VObj part :: _) =>
              match assoc "text" part with
              | VStr s => Some s
              | _ => None
              end
          | _ => None
          end
      | _ => None
      end
  | _ => None
  end.

(** Does the request body carry an image part? *)
Definition has_image_part (body : value) : bool :=
  match body with
  | VObj fields =>
      match assoc "messages" fields with
      | VArr (VObj message :: _) =>
          match assoc "content" message with
          | VArr (_ :: _ :: _) => true
          | _ => false
          end
      | _ => false
      end
  | _ => false
  end.

(** The image part of a request body, when it has one:
    [messages[0].content[1]]. *)
Definition image_part_of (body : value) : option value :=
  match body with
  | VObj fields =>
      match assoc "messages" fields with
      | VArr (VObj message :: _) =>
          match assoc "content" message with
          | VArr (_ :: part :: _) => Some part
          | _ => None
          end
      | _ => None
      end
  | _ => None
  end.

(** Counting the calls a run made. *)
Definition is_mutation (e : event) : bool :=
  match e with
  | EGraphql (UpdateProductDescription _ _) => true
  | _ => false
  end.


Definition is_generation_call (e : event) : bool :=
  match e with
  | EFetch (POST url _ _) => url =? messages_url
  | _ => false
  end.

Definition is_external_call (e : event) : bool :=
  match e with
  | EGraphql _ | EFetch _ => true
  | _ => false
  end.

Definition calls (p : event -> bool) (m : M reply) : nat :=
  List.length (filter p (fst m)).

(** [s] contains [needle]. *)
Definition contains (needle s : string) : bool :=
  match String.index 0 needle s with
  | Some _ => true
  | None => false
  end.

(** [s] ends with [suffix]. *)
Fixpoint starts_with (p l : list ascii) : bool :=
  match p, l with
  | [], _ => true
  | _ :: _, [] => false
  | a :: p', b :: l' => Ascii.eqb a b && starts_with p' l'
  end.

Definition ends_with (suffix s : string) : bool :=
  starts_with (rev (list_ascii_of_string suffix))
    (rev (list_ascii_of_string s)).

(** Has the product an image URL the handler will use? *)
Definition has_image (p : Product) : bool :=
  match featuredImage p with
  | Some url => negb (url =? "")
  | None => false
  end.

(** The image of the product, when it has one, can be downloaded and
    read. *)
Definition image_ready (world : World) (p : Product) : Prop :=
  match featuredImage p with
  | Some url =>
      url = "" \/
      exists imageResponse bytes,
        fetch world (GET url) = Ok imageResponse /\
        arrayBuffer imageResponse = Ok bytes
  | None => True
  end.

(** The value read at [content[0].text] of a reply, with [undefined] for
    anything that is not there. *)
Definition read (o : outcome value) : value :=
  match o with
  | Ok v => v
  | Throw _ => VUndefined
  end.

Definition text_field (body : value) : value :=
  read (member (read (element (read (member body "content")) 0)) "text").

(* ------------------------------------------------------------------ *)
(** ** Sample data *)

Definition blue_mug : Product :=
  {| product_id := "gid://shopify/Product/1";
     product_title := "Blue Mug";
     onlineStoreUrl := None;
     onlineStorePreviewUrl := Some "https://shop.example/preview/blue-mug";
     featuredImage := None;
     variants := [{| variant_id := "gid://shopify/ProductVariant/11";
                     variant_title := "Default";
                     variant_price := "12.00" |}];
     descriptionHtml := "" |}.

Definition size (n : string) (price : string) : Variant :=
  {| variant_id := "gid://shopify/ProductVariant/" ++ n;
     variant_title := "Size " ++ n;
     variant_price := price |}.

Definition red_shirt : Product :=
  {| product_id := "gid://shopify/Product/2";
     product_title := "Red Shirt";
     onlineStoreUrl := Some "https://shop.example/products/red-shirt";
     onlineStorePreviewUrl := Some "https://shop.example/preview/red-shirt";
     featuredImage := Some "https://cdn.example/red-shirt.jpg";
     variants := [size "1" "9.00"; size "2" "9.50"; size "3" "10.00";
                  size "4" "10.50"; size "5" "11.00"; size "6" "11.50";
                  size "7" "12.00"];
     descriptionHtml := "<p>A shirt.</p>" |}.

Definition catalog : list Product := [blue_mug; red_shirt].

Definition response_of (st : Z) (bytes : list byte) (body : outcome value)
  : response :=
  {| status := st; arrayBuffer := Ok bytes; json_body := body |}.

(** A world answering every download with [image] and the generation
    API with [ai]. *)
Definition world_with (image ai : outcome response) : World :=
  {| fetch := fun r => match r with
                       | GET _ => image
                       | POST _ _ _ => ai
                       end;
     CLAUDE_API_SECRET := Some "sk-test" |}.

Definition jpeg : list byte := ["J"%byte; "F"%byte; "I"%byte; "F"%byte].

Definition lovely_mug : value :=
  VObj [("content", VArr [VObj [("type", VStr "text");
                                ("text", VStr "A lovely mug.")]])].

Definition generate_form (id : string) : FormData :=
  [("productId", id); ("action", "generate")].

Definition update_form (id description : string) : FormData :=
  [("productId", id); ("description", description); ("action", "update")].

(* ------------------------------------------------------------------ *)
(** ** [Index] (lines 210-432): the page

    The component's own state, its event handlers as transitions on that
    state together with the form they submit, and the guards of its JSX
    that decide which sections are on screen.  [data] is [fetcher.data]
    ([undefined] until a reply has come in) and [products] the array
    handed over by [loader]. *)

Record IndexState : Type := {
  selectedProduct : string;
  isModalOpen : bool;
  isGeneratingDescription : bool
}.

(** The three [useState] initial values. *)
Definition initial_state : IndexState :=
  {| selectedProduct := "";
     isModalOpen := false;
     isGeneratingDescription := false |}.

(** [v?.k] *)
Definition optional_member (v : value) (k : string) : value :=
  match v with
  | VUndefined | VNull => VUndefined
  | _ => read (member v k)
  end.

(** [a || b] on values already computed. *)
Definition or_else (a b : value) : value := if truthy a then a else b.

(** [items.find(f)] *)
Fixpoint array_find (f : value -> outcome bool) (items : list value)
  : outcome value :=
  match items with
  | [] => Ok VUndefined
  | x :: rest =>
      match f x with
      | Throw e => Throw e
      | Ok true => Ok x
      | Ok false => array_find f rest
      end
  end.

(** Line 243:
    [products.find(product => product.node.id === selectedProduct)?.node] *)
Definition selectedProductDetails (products : list value) (st : IndexState)
  : outcome value :=
  match array_find
          (fun product =>
             match member product "node" with
             | Throw e => Throw e
             | Ok node =>
                 match member node "id" with
                 | Throw e => Throw e
                 | Ok id => Ok (is_string id (selectedProduct st))
                 end
             end) products with
  | Throw e => Throw e
  | Ok found =>
      match found with
      | VUndefined | VNull => Ok VUndefined
      | _ => member found "node"
      end
  end.

(** Lines 220-223. *)
Definition handleProductSelect (value : string) (st : IndexState) : IndexState :=
  {| selectedProduct := value;
     isModalOpen := true;
     isGeneratingDescription := isGeneratingDescription st |}.

(** Line 225. *)
Definition handleModalClose (st : IndexState) : IndexState :=
  {| selectedProduct := selectedProduct st;
     isModalOpen := false;
     isGeneratingDescription := isGeneratingDescription st |}.

(** Lines 227-234: the new state and the form handed to
    [fetcher.submit]. *)
Definition generateDescription (productId : string) (st : IndexState)
  : IndexState * FormData :=
  ({| selectedProduct := selectedProduct st;
      isModalOpen := false;
      isGeneratingDescription := true |},
   [("productId", productId); ("action", "generate")]).

(** Lines 236-241. *)
Definition updateDescription (productId description : string) (st : IndexState)
  : IndexState * FormData :=
  (st, [("productId", productId); ("description", description);
        ("action", "update")]).

(** The buttons: "Regenerate" (line 352) and the modal's primary action
    (line 395), "Use This Description" (line 359), "Select Another
    Product" (line 378). *)
Definition regenerate_click (st : IndexState) : IndexState * FormData :=
  generateDescription (selectedProduct st) st.

Definition use_description_click (data : value) (st : IndexState)
  : IndexState * FormData :=
  updateDescription (selectedProduct st)
    (to_string (or_else (optional_member data "description") (VStr ""))) st.

Definition select_another_click (st : IndexState) : IndexState :=
  {| selectedProduct := selectedProduct st;
     isModalOpen := isModalOpen st;
     isGeneratingDescription := false |}.

(** The body of the effect, lines 246-248. *)
Definition effect_body (data : value) (st : IndexState) : IndexState :=
  if truthy (optional_member data "error")
     || truthy (optional_member data "description")
  then {| selectedProduct := selectedProduct st;
          isModalOpen := isModalOpen st;
          isGeneratingDescription := false |}
  else st.

(** [Object.is] between a dependency of the previous render and the one
    of this render, for values of two different replies: primitives
    compare by value, an array or object of a new reply is a new
    one. *)
Definition same_value (a b : value) : bool :=
  match a, b with
  | VUndefined, VUndefined => true
  | VNull, VNull => true
  | VBool x, VBool y => Bool.eqb x y
  | VNum x, VNum y => (x =? y)%Z
  | VStr x, VStr y => (x =? y)%string
  | _, _ => false
  end.

(** The dependency array of line 249:
    [[fetcher.data?.error, fetcher.data?.description]]. *)
Definition dependencies_changed (previous current : value) : bool :=
  negb (same_value (optional_member previous "error")
          (optional_member current "error")
        && same_value (optional_member previous "description")
             (optional_member current "description")).

(** [fetcher.data] going from [previous] to [current]: the effect runs
    only when one of its dependencies changed. *)
Definition receive (previous current : value) (st : IndexState) : IndexState :=
  if dependencies_changed previous current then effect_body current st else st.

(** The guards of the JSX: lines 266, 271, 276 and 279. *)
Definition shows_error_banner (data : value) : bool :=
  truthy (optional_member data "error").

Definition shows_description_banner (data : value) : bool :=
  truthy (optional_member data "description").

Definition shows_success_banner (data : value) : bool :=
  truthy (optional_member data "success").

Definition shows_store_link (data : value) : bool :=
  shows_success_banner data && truthy (optional_member data "onlineStoreUrl").

(** Line 286: the product list. *)
Definition shows_product_list (st : IndexState) (data : value) : bool :=
  negb (isGeneratingDescription st)
  && negb (truthy (optional_member data "description")).

(** Line 324: the card of the selected product, [details] being the
    value of [selectedProductDetails]. *)
Definition shows_detail_card (st : IndexState) (data details : value) : bool :=
  (isGeneratingDescription st || truthy (optional_member data "description"))
  && truthy details.

(** Line 328: inside the card, the spinner or the generated text with
    its buttons. *)
Definition shows_spinner (st : IndexState) (data details : value) : bool :=
  shows_detail_card st data details && isGeneratingDescription st.

Definition shows_review (st : IndexState) (data details : value) : bool :=
  shows_detail_card st data details && negb (isGeneratingDescription st).

(** Line 366: the "View in Store" button among the review buttons. *)
Definition shows_store_button (st : IndexState) (data details : value) : bool :=
  shows_review st data details && truthy (optional_member data "onlineStoreUrl").

(** The [products] the page gets from a listing reply: its edges. *)
Definition listed (ps : list Product) : list value :=
  map listed_product_edge ps.

Definition update_error_reply : reply :=
  json (VObj [("error", VStr "Failed to update product description")]) 500.

(* ------------------------------------------------------------------ *)
(** ** Running the monad *)

Ltac run :=
  unfold admin_graphql, world_fetch, console_error, console_log,
    try_catch, bind, emit, lift, ret in *;
  cbn [fst snd app] in *.

Lemma publish_shape (admin : Admin) (productId description : value) :
  exists logs r,
    publish admin productId description
    = (EGraphql (UpdateProductDescription productId description) :: logs, Ok r)
    /\ filter is_external_call logs = [].
Proof.
  unfold publish; run.
  destruct (graphql admin _) as [productData|e]; cbn [app]; [|eauto].
  destruct (member productData "data") as [data|e]; cbn [app]; [|eauto].
  destruct (member data "productUpdate") as [pu|e]; cbn [app]; [|eauto].
  destruct (member pu "product") as [product|e]; cbn [app]; [|eauto].
  destruct (member product "onlineStoreUrl") as [url|e]; cbn [app]; [|eauto].
  destruct (truthy url); cbn [app]; [eauto|].
  destruct (member product "onlineStorePreviewUrl"); cbn [app]; eauto.
Qed.

Lemma request_description_shape (world : World) (body : value) :
  exists logs r,
    request_description world body
    = (EFetch (messages_request world body) :: logs, Ok r)
    /\ filter is_external_call logs = [].
Proof.
  unfold request_description; run.
  destruct (fetch world _) as [aiResponse|e]; cbn [app]; [|eauto].
  destruct (ok aiResponse); cbn [negb app]; [|eauto].
  destruct (json_body aiResponse) as [aiResponseJson|e]; cbn [app]; [|eauto].
  destruct (unexpected_format aiResponseJson) as [[|]|e]; cbn [app]; [eauto| |eauto].
  destruct (member aiResponseJson "content") as [content|e]; cbn [app]; [|eauto].
  destruct (element content 0) as [first|e]; cbn [app]; [|eauto].
  destruct (member first "text"); cbn [app]; eauto.
Qed.

Lemma compose_request_trace (admin : Admin) (world : World) (productId : value) :
  exists rest o,
    compose_request admin world productId
    = (EGraphql (ProductQuery productId 5) :: rest, o)
    /\ (rest = [] \/ exists url, rest = [EFetch (GET url)]).
Proof.
  unfold compose_request; run.
  destruct (graphql admin _) as [productData|e]; cbn [app]; [|eauto].
  destruct (member productData "data") as [data|e]; cbn [app]; [|eauto].
  destruct (member data "product") as [product|e]; cbn [app]; [|eauto].
  destruct (member product "title") as [title|e]; cbn [app]; [|eauto].
  destruct (member product "variants") as [vs|e]; cbn [app]; [|eauto].
  destruct (member vs "edges") as [edges|e]; cbn [app]; [|eauto].
  destruct (array_map edges variant_entry) as [lines|e]; cbn [app]; [|eauto].
  destruct (member product "featuredImage") as [image|e]; cbn [app]; [|eauto].
  match goal with
  | |- context [match ?o with Ok _ => _ | Throw _ => _ end] =>
      destruct o as [imageUrl|e]; cbn [app]; [|eauto]
  end.
  destruct (truthy imageUrl); cbn [app]; [|eauto].
  destruct (fetch world _) as [imageResponse|e]; cbn [app]; [|eauto 6].
  destruct (arrayBuffer imageResponse); cbn [app]; eauto 6.
Qed.

Lemma variant_entry_edge (v : Variant) :
  variant_entry (variant_edge v) = Ok (variant_line v).
Proof. reflexivity. Qed.

Lemma map_outcome_variant_edges (vs : list Variant) :
  map_outcome variant_entry (map variant_edge vs) = Ok (map variant_line vs).
Proof.
  induction vs as [|v vs IH]; [reflexivity|].
  cbn [map map_outcome]. rewrite variant_entry_edge, IH. reflexivity.
Qed.

(** What [compose_request] does with a well-formed product reply. *)
Lemma compose_request_product (admin : Admin) (world : World)
    (productId : value) (p : Product) :
  graphql admin (ProductQuery productId 5) = Ok (product_reply (Some p)) ->
  compose_request admin world productId
  = let lookup := EGraphql (ProductQuery productId 5) in
    let title := VStr (product_title p) in
    let lines := map variant_line (variants p) in
    match featuredImage p with
    | None => ([lookup], Ok (requestData title lines VUndefined VUndefined))
    | Some url =>
        if url =? "" then
          ([lookup], Ok (requestData title lines (VStr url) VUndefined))
        else
          match fetch world (GET url) with
          | Throw e => ([lookup; EFetch (GET url)], Throw e)
          | Ok imageResponse =>
              match arrayBuffer imageResponse with
              | Throw e => ([lookup; EFetch (GET url)], Throw e)
              | Ok bytes =>
                  ([lookup; EFetch (GET url)],
                   Ok (requestData title lines (VStr url)
                         (VStr (base64 bytes))))
              end
          end
    end.
Proof.
  intros Hreply. unfold compose_request; run. rewrite Hreply.
  unfold product_reply, product_node, connection.
  cbn [member assoc String.eqb Ascii.eqb Bool.eqb app].
  cbn [array_map]. rewrite map_outcome_variant_edges. cbn [app].
  destruct (featuredImage p) as [url|]; cbn [image_node member assoc app];
    [|reflexivity].
  cbn [String.eqb Ascii.eqb Bool.eqb truthy to_string].
  destruct (url =? ""); cbn [negb app]; [reflexivity|].
  destruct (fetch world (GET url)) as [imageResponse|e]; cbn [app];
    [|reflexivity].
  destruct (arrayBuffer imageResponse); reflexivity.
Qed.

Lemma no_call_in_logs (p : event -> bool) (logs : list event) :
  (forall e, p e = true -> is_external_call e = true) ->
  filter is_external_call logs = [] ->
  filter p logs = [].
Proof.
  intros Hp. induction logs as [|e logs IH]; [reflexivity|].
  cbn [filter]. destruct (is_external_call e) eqn:He; [discriminate|].
  intros Hlogs. destruct (p e) eqn:Hpe.
  - apply Hp in Hpe. congruence.
  - auto.
Qed.



Lemma generation_call_is_external e :
  is_generation_call e = true -> is_external_call e = true.
Proof. destruct e as [|[]| |]; cbn; congruence. Qed.



Lemma generate_of_composed
    (admin : Admin) (world : World) (productId : value)
    (t : list event) (body : value) :
  compose_request admin world productId = (t, Ok body) ->
  exists logs r,
    generate admin world productId
    = ((t ++ EFetch (messages_request world body) :: logs)%list, Ok r)
    /\ filter is_external_call logs = [].
Proof.
  intros Hcompose. unfold generate, bind. rewrite Hcompose.
  destruct (request_description_shape world body) as (logs & r & -> & Hlogs).
  eauto.
Qed.

Lemma generate_of_failed
    (admin : Admin) (world : World) (productId : value)
    (t : list event) (e : exn) :
  compose_request admin world productId = (t, Throw e) ->
  generate admin world productId = (t, Throw e).
Proof. intros Hcompose. unfold generate, bind. rewrite Hcompose. reflexivity. Qed.

Lemma no_generation_call_before_request (q : query) (rest : list event) :
  rest = [] \/ (exists url, rest = [EFetch (GET url)]) ->
  filter is_generation_call (EGraphql q :: rest) = [].
Proof. intros [-> | (url & ->)]; reflexivity. Qed.

(* ------------------------------------------------------------------ *)
(** ** Validation and dispatch *)

(** C3: a call whose payload has no product identifier, or an empty
    one, is answered with status 400 and [{error: "Product ID is
    required"}] whatever its action is, and the run makes no outbound
    call at all: no catalog read, no generation call, no mutation. *)
Theorem missing_product_id_rejected
    (admin : Admin) (world : World) (formData : FormData) :
  formData_get "productId" formData = VNull
  \/ formData_get "productId" formData = VStr "" ->
  action admin world formData
  = ([], Ok (json (VObj [("error", VStr "Product ID is required")]) 400)).
Proof.
  intros Hid. unfold action.
  destruct Hid as [-> | ->]; reflexivity.
Qed.

Lemma missing_product_id_rejected_witness :
  action (shop catalog) (world_with (Ok (response_of 200 jpeg (Ok VNull)))
                                    (Ok (response_of 200 [] (Ok lovely_mug))))
    [("action", "update"); ("description", "<p>text</p>")]
  = ([], Ok (json (VObj [("error", VStr "Product ID is required")]) 400)).
Proof.
  apply missing_product_id_rejected. left. reflexivity.
Defined.




(* ------------------------------------------------------------------ *)
(** ** The update branch *)

(** C7: when the write succeeds, the [onlineStoreUrl] of the reply is
    the live storefront URL whenever the product has one (also when it
    has a preview URL too), the preview URL when it has no storefront
    URL, and [null] when it has neither. *)
Theorem public_url_prefers_storefront
    (admin : Admin) (world : World) (formData : FormData) (p : Product) :
  truthy (formData_get "productId" formData) = true ->
  is_string (formData_get "action" formData) "update" = true ->
  graphql admin
    (UpdateProductDescription (formData_get "productId" formData)
       (formData_get "description" formData))
  = Ok (update_reply (Some p)) ->
  exists publicUrl,
    action admin world formData
    = ([EGraphql
          (UpdateProductDescription (formData_get "productId" formData)
             (formData_get "description" formData))],
       Ok (json (VObj [("success", VBool true);
                       ("onlineStoreUrl", publicUrl)]) 200))
    /\ (forall storefront,
          onlineStoreUrl p = Some storefront -> storefront <> "" ->
          publicUrl = VStr storefront)
    /\ (forall preview,
          onlineStoreUrl p = None -> onlineStorePreviewUrl p = Some preview ->
          publicUrl = VStr preview)
    /\ (onlineStoreUrl p = None -> onlineStorePreviewUrl p = None ->
        publicUrl = VNull).
Proof.
  intros Hid Hact Hreply. unfold action. rewrite Hid, Hact. cbn [negb].
  unfold publish; run. rewrite Hreply.
  unfold update_reply, updated_product_node.
  cbn [member assoc String.eqb Ascii.eqb Bool.eqb app].
  destruct (onlineStoreUrl p) as [storefront|] eqn:Hstore; cbn [nullable truthy].
  - destruct (storefront =? "") eqn:Hempty; cbn [negb app].
    + apply String.eqb_eq in Hempty. subst storefront.
      eexists. split; [reflexivity|].
      repeat split; intros; congruence.
    + eexists. split; [reflexivity|].
      repeat split; intros; congruence.
  - cbn [app]. eexists. split; [reflexivity|].
    repeat split; intros; try congruence.
    + match goal with H : onlineStorePreviewUrl p = Some _ |- _ => rewrite H end.
      reflexivity.
    + match goal with H : onlineStorePreviewUrl p = None |- _ => rewrite H end.
      reflexivity.
Qed.

Lemma public_url_prefers_storefront_witness :
  exists publicUrl,
    action (shop catalog)
      (world_with (Throw (Failure "offline")) (Throw (Failure "offline")))
      (update_form "gid://shopify/Product/2" "<p>New text</p>")
    = ([EGraphql
          (UpdateProductDescription (VStr "gid://shopify/Product/2")
             (VStr "<p>New text</p>"))],
       Ok (json (VObj [("success", VBool true);
                       ("onlineStoreUrl", publicUrl)]) 200))
    /\ publicUrl = VStr "https://shop.example/products/red-shirt".
Proof.
  destruct (public_url_prefers_storefront (shop catalog)
              (world_with (Throw (Failure "offline")) (Throw (Failure "offline")))
              (update_form "gid://shopify/Product/2" "<p>New text</p>")
              red_shirt eq_refl eq_refl eq_refl)
    as (publicUrl & Hrun & Hstore & _).
  exists publicUrl. split; [exact Hrun|].
  apply Hstore; [reflexivity | discriminate].
Defined.

(** C8, as the code has it: an "update" call with a product id is never
    checked for its description, not even for having one.  Whatever
    [formData.get("description")] gives, a string of any content and
    length (the empty one too) or [null] when the payload has no such
    field, is the [descriptionHtml] of the one write mutation, and
    that mutation is the only outbound call. *)
Theorem description_passed_verbatim
    (admin : Admin) (world : World) (formData : FormData) :
  truthy (formData_get "productId" formData) = true ->
  is_string (formData_get "action" formData) "update" = true ->
  exists logs r,
    action admin world formData
    = (EGraphql
         (UpdateProductDescription (formData_get "productId" formData)
            (formData_get "description" formData)) :: logs,
       Ok r)
    /\ filter is_external_call logs = [].
Proof.
  intros Hid Hact. unfold action. rewrite Hid, Hact. cbn [negb].
  apply publish_shape.
Qed.

Lemma description_passed_verbatim_witness :
  exists logs r,
    action (shop catalog)
      (world_with (Throw (Failure "offline")) (Throw (Failure "offline")))
      (update_form "gid://shopify/Product/1" "")
    = (EGraphql
         (UpdateProductDescription (VStr "gid://shopify/Product/1") (VStr ""))
         :: logs, Ok r)
    /\ filter is_external_call logs = [].
Proof.
  exact (description_passed_verbatim (shop catalog)
           (world_with (Throw (Failure "offline")) (Throw (Failure "offline")))
           (update_form "gid://shopify/Product/1" "") eq_refl eq_refl).
Defined.

(** C8 as stated fails: an "update" call without any [description]
    field is not turned away.  The mutation is sent with a [null]
    description and the call is answered with success. *)
Lemma update_without_description_accepted :
  formData_get "description"
    [("productId", "gid://shopify/Product/1"); ("action", "update")] = VNull
  /\ action (shop catalog)
       (world_with (Throw (Failure "offline")) (Throw (Failure "offline")))
       [("productId", "gid://shopify/Product/1"); ("action", "update")]
     = ([EGraphql
           (UpdateProductDescription (VStr "gid://shopify/Product/1") VNull)],
        Ok (json (VObj [("success", VBool true);
                        ("onlineStoreUrl",
                         VStr "https://shop.example/preview/blue-mug")]) 200)).
Proof. split; reflexivity. Qed.

(* ------------------------------------------------------------------ *)
(** ** The generate branch: reading the reply of the generation API *)

Lemma action_generate (admin : Admin) (world : World) (formData : FormData) :
  truthy (formData_get "productId" formData) = true ->
  is_string (formData_get "action" formData) "update" = false ->
  action admin world formData
  = generate admin world (formData_get "productId" formData).
Proof. intros Hid Hact. unfold action. rewrite Hid, Hact. reflexivity. Qed.

(** On a reply that is an actual value, the test of line 191 says
    whether [content[0].text] is missing or falsy. *)
Lemma unexpected_format_text_field (aiResponseJson : value) :
  aiResponseJson <> VNull -> aiResponseJson <> VUndefined ->
  unexpected_format aiResponseJson
  = Ok (negb (truthy (text_field aiResponseJson))).
Proof.
  intros Hnull Hundef. unfold unexpected_format, text_field.
  destruct (member aiResponseJson "content") as [content|e] eqn:Hcontent.
  2:{ destruct aiResponseJson; cbn in Hcontent; congruence. }
  cbn [read].
  destruct (truthy content) eqn:Htc; cbn [negb].
  - destruct (element content 0) as [first|e] eqn:Hfirst.
    2:{ destruct content; cbn in Hfirst, Htc; congruence. }
    cbn [read].
    destruct (truthy first) eqn:Htf; cbn [negb].
    + destruct (member first "text") as [text|e] eqn:Htext.
      2:{ destruct first; cbn in Htext, Htf; congruence. }
      reflexivity.
    + destruct first as [| |[|]|n|s|items|fields]; cbn in Htf |- *;
        try discriminate; reflexivity.
  - destruct content as [| |[|]|n|s|items|fields]; cbn in Htc |- *;
      try discriminate; try reflexivity.
    destruct s; cbn in Htc |- *; [reflexivity | discriminate].
Qed.

(** X17: when the generation API answers with a status outside
    200-299, or with a 2xx status and a JSON body that is a value of
    its own (not the bare [null]) in which [content[0].text] is missing
    or falsy (no [content], an empty [content], no [text] or an empty
    [text] in its first element), the call is answered with status 200
    and the fixed placeholder as [description], not with an error
    envelope. *)
Theorem rejected_or_malformed_reply_falls_back
    (admin : Admin) (world : World) (formData : FormData)
    (t : list event) (body : value) (aiResponse : response) :
  truthy (formData_get "productId" formData) = true ->
  is_string (formData_get "action" formData) "update" = false ->
  compose_request admin world (formData_get "productId" formData)
  = (t, Ok body) ->
  fetch world (messages_request world body) = Ok aiResponse ->
  ok aiResponse = false
  \/ (ok aiResponse = true
      /\ exists aiResponseJson,
           json_body aiResponse = Ok aiResponseJson
           /\ aiResponseJson <> VNull
           /\ aiResponseJson <> VUndefined
           /\ truthy (text_field aiResponseJson) = false) ->
  snd (action admin world formData)
  = Ok (json (VObj [("description",
                     VStr "Failed to generate description. Let`s try use this one for demo purposes.")])
          200).
Proof.
  intros Hid Hact Hcompose Hfetch Hreply.
  rewrite (action_generate _ _ _ Hid Hact).
  unfold generate, bind. rewrite Hcompose.
  unfold request_description; run. rewrite Hfetch. cbn [app].
  destruct Hreply as [Hok | (Hok & aiResponseJson & Hjson & Hnull & Hundef & Htext)];
    rewrite Hok; cbn [negb app snd].
  - reflexivity.
  - rewrite Hjson. cbn [app].
    rewrite (unexpected_format_text_field _ Hnull Hundef), Htext.
    reflexivity.
Qed.

Lemma rejected_or_malformed_reply_falls_back_witness :
  snd (action (shop catalog)
         (world_with (Throw (Failure "offline"))
            (Ok (response_of 500 [] (Throw (Failure "not JSON")))))
         (generate_form "gid://shopify/Product/1"))
  = Ok (json (VObj [("description",
                     VStr "Failed to generate description. Let`s try use this one for demo purposes.")])
          200)
  /\ snd (action (shop catalog)
            (world_with (Throw (Failure "offline"))
               (Ok (response_of 200 [] (Ok (VObj [])))))
            (generate_form "gid://shopify/Product/1"))
     = Ok (json (VObj [("description",
                        VStr "Failed to generate description. Let`s try use this one for demo purposes.")])
             200).
Proof.
  split.
  - eapply (rejected_or_malformed_reply_falls_back (shop catalog)
              (world_with (Throw (Failure "offline"))
                 (Ok (response_of 500 [] (Throw (Failure "not JSON")))))
              (generate_form "gid://shopify/Product/1")).
    + reflexivity.
    + reflexivity.
    + reflexivity.
    + reflexivity.
    + left. reflexivity.
  - eapply (rejected_or_malformed_reply_falls_back (shop catalog)
              (world_with (Throw (Failure "offline"))
                 (Ok (response_of 200 [] (Ok (VObj [])))))
              (generate_form "gid://shopify/Product/1")).
    + reflexivity.
    + reflexivity.
    + reflexivity.
    + reflexivity.
    + right. split; [reflexivity|]. exists (VObj []).
      repeat split; discriminate.
Defined.

(** C1 at a 2xx reply whose JSON body is [null]: the reply has no
    [content], so the claim wants the placeholder; but the test of line
    191, which sends [{}], [{content: null}] and [{content: [null]}] to
    the placeholder, reads [content] off [null] and throws, the
    handler's [catch] takes over and the call is answered with the
    status-500 error envelope. *)
Theorem null_reply_is_an_error :
  ok (response_of 200 [] (Ok VNull)) = true
  /\ truthy (text_field VNull) = false
  /\ snd (action (shop catalog)
            (world_with (Throw (Failure "offline"))
               (Ok (response_of 200 [] (Ok VNull))))
            (generate_form "gid://shopify/Product/1"))
     = Ok (json (VObj [("error",
                        VStr "Failed to generate description. Please try again later.")])
             500)
  /\ map (fun malformed =>
            snd (action (shop catalog)
                   (world_with (Throw (Failure "offline"))
                      (Ok (response_of 200 [] (Ok malformed))))
                   (generate_form "gid://shopify/Product/1")))
       [VObj []; VObj [("content", VNull)]; VObj [("content", VArr [VNull])]]
     = let placeholder :=
         Ok (json (VObj [("description",
                          VStr "Failed to generate description. Let`s try use this one for demo purposes.")])
               200) in
       [placeholder; placeholder; placeholder].
Proof. repeat split. Qed.

(** C2: when the request to the generation API fails in transport, the
    [fetch] throwing or the reading of a 2xx reply's body throwing, the
    call is answered with the status-500 envelope [{error: ...}]: no
    description, no placeholder. *)
Theorem transport_failure_is_an_error
    (admin : Admin) (world : World) (formData : FormData)
    (t : list event) (body : value) (e : exn) :
  truthy (formData_get "productId" formData) = true ->
  is_string (formData_get "action" formData) "update" = false ->
  compose_request admin world (formData_get "productId" formData)
  = (t, Ok body) ->
  fetch world (messages_request world body) = Throw e
  \/ (exists aiResponse,
        fetch world (messages_request world body) = Ok aiResponse
        /\ ok aiResponse = true
        /\ json_body aiResponse = Throw e) ->
  snd (action admin world formData)
  = Ok (json (VObj [("error",
                     VStr "Failed to generate description. Please try again later.")])
          500).
Proof.
  intros Hid Hact Hcompose Hfail.
  rewrite (action_generate _ _ _ Hid Hact).
  unfold generate, bind. rewrite Hcompose.
  unfold request_description; run.
  destruct Hfail as [Hfetch | (aiResponse & Hfetch & Hok & Hjson)];
    rewrite Hfetch; cbn [app snd].
  - reflexivity.
  - rewrite Hok. cbn [negb]. rewrite Hjson. reflexivity.
Qed.

Lemma transport_failure_is_an_error_witness :
  snd (action (shop catalog)
         (world_with (Throw (Failure "offline")) (Throw (Failure "ECONNREFUSED")))
         (generate_form "gid://shopify/Product/1"))
  = Ok (json (VObj [("error",
                     VStr "Failed to generate description. Please try again later.")])
          500).
Proof.
  eapply (transport_failure_is_an_error (shop catalog)
            (world_with (Throw (Failure "offline"))
               (Throw (Failure "ECONNREFUSED")))
            (generate_form "gid://shopify/Product/1")).
  - reflexivity.
  - reflexivity.
  - reflexivity.
  - left. reflexivity.
Defined.

(* ------------------------------------------------------------------ *)
(** ** The generate branch: product lookup and image *)

(** A product reply of [null] makes the first property read throw,
    outside any [try]. *)
Lemma generate_unresolved_product
    (admin : Admin) (world : World) (productId : value) :
  graphql admin (ProductQuery productId 5) = Ok (product_reply None) ->
  generate admin world productId
  = ([EGraphql (ProductQuery productId 5)], Throw TypeError).
Proof.
  intros Hreply. unfold generate, compose_request; run. rewrite Hreply.
  reflexivity.
Qed.

(** C4 at a product id the shop does not know: the lookup answers
    [{data: {product: null}}], reading [title] off [null] throws before
    the handler's [try] is entered, and the exception leaves [action]
    as it is; no [{error: ...}] reply is produced. *)
Theorem unresolved_product_id_throws :
  find_product catalog (VStr "gid://shopify/Product/404") = None
  /\ action (shop catalog)
       (world_with (Ok (response_of 200 jpeg (Ok VNull)))
                   (Ok (response_of 200 [] (Ok lovely_mug))))
       (generate_form "gid://shopify/Product/404")
     = ([EGraphql (ProductQuery (VStr "gid://shopify/Product/404") 5)],
        Throw TypeError).
Proof.
  split; [reflexivity|].
  rewrite action_generate by reflexivity.
  apply generate_unresolved_product. reflexivity.
Qed.

Lemma base64_truthy (bytes : list byte) :
  truthy (VStr (base64 bytes)) = match bytes with [] => false | _ => true end.
Proof. destruct bytes as [|a [|b [|c rest]]]; reflexivity. Qed.

(** X18: for a product with a featured image URL, an image download
    that comes back with a response, whatever its HTTP status, never
    stops the call.  The status is not looked at; the generation
    request is sent and the call is answered with a reply.  Unless the
    body is empty, the request carries as its second content part the
    image part whose data is the base64 text of that body, declared as
    "image/jpeg"; an empty body gives no image part. *)
Theorem image_response_never_aborts
    (admin : Admin) (world : World) (formData : FormData) (p : Product)
    (url : string) (imageResponse : response) (bytes : list byte) :
  truthy (formData_get "productId" formData) = true ->
  is_string (formData_get "action" formData) "update" = false ->
  graphql admin (ProductQuery (formData_get "productId" formData) 5)
  = Ok (product_reply (Some p)) ->
  featuredImage p = Some url ->
  url <> "" ->
  fetch world (GET url) = Ok imageResponse ->
  arrayBuffer imageResponse = Ok bytes ->
  exists body logs r,
    action admin world formData
    = (([EGraphql (ProductQuery (formData_get "productId" formData) 5);
        EFetch (GET url);
        EFetch (messages_request world body)] ++ logs)%list,
       Ok r)
    /\ filter is_external_call logs = []
    /\ has_image_part body = match bytes with [] => false | _ => true end
    /\ image_part_of body
       = match bytes with
         | [] => None
         | _ =>
             Some (VObj [("type", VStr "image");
                         ("source",
                          VObj [("type", VStr "base64");
                                ("media_type", VStr "image/jpeg");
                                ("data", VStr (base64 bytes))])])
         end.
Proof.
  intros Hid Hact Hreply Himage Hurl Hfetch Hbuffer.
  rewrite (action_generate _ _ _ Hid Hact).
  unfold generate, bind.
  rewrite (compose_request_product _ world _ _ Hreply).
  cbv zeta. rewrite Himage.
  apply String.eqb_neq in Hurl. rewrite Hurl, Hfetch, Hbuffer.
  match goal with
  | |- context [request_description world ?b] =>
      destruct (request_description_shape world b) as (logs & r & -> & Hlogs);
      exists b, logs, r
  end.
  split; [reflexivity|]. split; [exact Hlogs|].
  unfold requestData, has_image_part, image_part_of.
  cbn [assoc String.eqb Ascii.eqb Bool.eqb].
  rewrite base64_truthy. destruct bytes; split; reflexivity.
Qed.

Lemma image_response_never_aborts_witness :
  exists body logs r,
    action (shop catalog)
      (world_with (Ok (response_of 404 jpeg (Throw (Failure "not JSON"))))
                  (Ok (response_of 200 [] (Ok lovely_mug))))
      (generate_form "gid://shopify/Product/2")
    = (([EGraphql (ProductQuery (VStr "gid://shopify/Product/2") 5);
        EFetch (GET "https://cdn.example/red-shirt.jpg");
        EFetch
          (messages_request
             (world_with (Ok (response_of 404 jpeg (Throw (Failure "not JSON"))))
                         (Ok (response_of 200 [] (Ok lovely_mug))))
             body)] ++ logs)%list,
       Ok r)
    /\ filter is_external_call logs = []
    /\ image_part_of body
       = Some (VObj [("type", VStr "image");
                     ("source",
                      VObj [("type", VStr "base64");
                            ("media_type", VStr "image/jpeg");
                            ("data", VStr "SkZJRg==")])]).
Proof.
  destruct (image_response_never_aborts (shop catalog)
              (world_with (Ok (response_of 404 jpeg (Throw (Failure "not JSON"))))
                          (Ok (response_of 200 [] (Ok lovely_mug))))
              (generate_form "gid://shopify/Product/2")
              (first_variants 5 red_shirt)
              "https://cdn.example/red-shirt.jpg"
              (response_of 404 jpeg (Throw (Failure "not JSON"))) jpeg
              eq_refl eq_refl eq_refl eq_refl
              (fun H : "https://cdn.example/red-shirt.jpg" = "" =>
                 match H in _ = s
                       return match s with EmptyString => False | _ => True end
                 with eq_refl => I end)
              eq_refl eq_refl)
    as (body & logs & r & Hrun & Hlogs & _ & Hpart).
  exists body, logs, r.
  split; [exact Hrun|]. split; [exact Hlogs | exact Hpart].
Defined.

(** C5 at an image download that throws: the claim wants the call to
    go on without the image; but lines 136-138 are outside any [try],
    so the exception is not caught, no generation request is sent and
    [action] ends with that exception instead of a reply. *)
Theorem image_fetch_failure_aborts :
  featuredImage red_shirt = Some "https://cdn.example/red-shirt.jpg"
  /\ action (shop catalog)
       (world_with (Throw (Failure "ECONNRESET"))
                   (Ok (response_of 200 [] (Ok lovely_mug))))
       (generate_form "gid://shopify/Product/2")
     = ([EGraphql (ProductQuery (VStr "gid://shopify/Product/2") 5);
         EFetch (GET "https://cdn.example/red-shirt.jpg")],
        Throw (Failure "ECONNRESET")).
Proof. split; reflexivity. Qed.

(* ------------------------------------------------------------------ *)
(** ** The prompt *)

Lemma string_app_assoc (a b c : string) : (a ++ b) ++ c = a ++ (b ++ c).
Proof.
  induction a as [|ch a IH]; [reflexivity|].
  cbn [append]. rewrite IH. reflexivity.
Qed.

Lemma list_ascii_of_string_app (a b : string) :
  list_ascii_of_string (a ++ b)
  = (list_ascii_of_string a ++ list_ascii_of_string b)%list.
Proof.
  induction a as [|ch a IH]; [reflexivity|].
  cbn [append list_ascii_of_string app]. rewrite IH. reflexivity.
Qed.

Lemma starts_with_app (p a b : list ascii) :
  List.length p <= List.length a ->
  starts_with p (a ++ b)%list = starts_with p a.
Proof.
  revert a. induction p as [|x p IH]; intros a Hlen; [reflexivity|].
  destruct a as [|y a]; cbn [List.length] in Hlen; [lia|].
  cbn [app starts_with]. rewrite IH by lia. reflexivity.
Qed.

(** Only the end of a string decides whether it ends with [suffix]. *)
Lemma ends_with_tail (suffix x y : string) :
  List.length (list_ascii_of_string suffix)
  <= List.length (list_ascii_of_string y) ->
  ends_with suffix (x ++ y) = ends_with suffix y.
Proof.
  intros Hlen. unfold ends_with.
  rewrite list_ascii_of_string_app, rev_app_distr.
  apply starts_with_app. rewrite !length_rev. exact Hlen.
Qed.

(** The prompt ends with the image clause exactly when an image URL is
    there, whatever title and variants are interpolated. *)
Lemma prompt_ends_with_image_clause
    (productTitle : value) (lines : list string) (imageUrl : value) :
  ends_with image_clause (prompt_text productTitle lines imageUrl)
  = truthy imageUrl.
Proof.
  unfold prompt_text.
  set (tail := if truthy imageUrl then image_clause else "").
  match goal with
  | |- context [?g ++ tail] => set (guidance := g)
  end.
  set (ending := guidance ++ tail).
  rewrite <- !string_app_assoc.
  rewrite ends_with_tail.
  - subst ending tail guidance. destruct (truthy imageUrl); reflexivity.
  - subst ending tail guidance. apply Nat.leb_le.
    destruct (truthy imageUrl); reflexivity.
Qed.

(** With a well-formed product reply and a readable image, the request
    is built from the product's own title and variants. *)
Lemma compose_request_ready
    (admin : Admin) (world : World) (productId : value) (p : Product) :
  graphql admin (ProductQuery productId 5) = Ok (product_reply (Some p)) ->
  image_ready world p ->
  exists downloads imageUrl imageBase64,
    compose_request admin world productId
    = (EGraphql (ProductQuery productId 5) :: downloads,
       Ok (requestData (VStr (product_title p))
             (map variant_line (variants p)) imageUrl imageBase64))
    /\ truthy imageUrl = has_image p.
Proof.
  intros Hreply Hready.
  rewrite (compose_request_product _ world _ _ Hreply). cbv zeta.
  unfold image_ready, has_image in *.
  destruct (featuredImage p) as [url|].
  - destruct Hready as [-> | (imageResponse & bytes & Hfetch & Hbuffer)].
    + cbn [String.eqb]. eauto.
    + destruct (url =? "") eqn:Hurl.
      * exists [], (VStr url), VUndefined. split; [reflexivity|].
        cbn [truthy]. rewrite Hurl. reflexivity.
      * rewrite Hfetch, Hbuffer.
        exists [EFetch (GET url)], (VStr url), (VStr (base64 bytes)).
        split; [reflexivity|]. cbn [truthy]. rewrite Hurl. reflexivity.
  - exists [], VUndefined, VUndefined. split; reflexivity.
Qed.

(** The request of a generate call that got its product is among the
    calls of the run. *)
Lemma generate_sends_request
    (admin : Admin) (world : World) (productId : value)
    (t : list event) (body : value) :
  compose_request admin world productId = (t, Ok body) ->
  In (EFetch (messages_request world body))
    (fst (generate admin world productId)).
Proof.
  intros Hcompose. unfold generate, bind. rewrite Hcompose.
  destruct (request_description_shape world body) as (logs & r & -> & _).
  cbn [fst]. apply in_or_app. right. left. reflexivity.
Qed.

(** C9: the prompt of a generation call is the fixed template with the
    product title after "Title: " and, after "Variants: ", the entries
    "title - $price" of the product's variants joined by ", "; it ends
    with the image clause exactly when the product has a featured image
    URL.  For "Blue Mug" with the single variant "Default" at "12.00"
    and no image, it contains "Title: Blue Mug" and
    "Variants: Default - $12.00" and no image clause. *)
Theorem prompt_follows_template
    (admin : Admin) (world : World) (formData : FormData) (p : Product) :
  truthy (formData_get "productId" formData) = true ->
  is_string (formData_get "action" formData) "update" = false ->
  graphql admin (ProductQuery (formData_get "productId" formData) 5)
  = Ok (product_reply (Some p)) ->
  image_ready world p ->
  exists body prompt,
    In (EFetch (messages_request world body))
      (fst (action admin world formData))
    /\ prompt_of body = Some prompt
    /\ prompt
       = "Generate an engaging product description for the following product:"
         ++ LF ++ "  Title: " ++ product_title p
         ++ LF ++ "  Variants: "
         ++ String.concat ", "
              (map (fun v => variant_title v ++ " - $" ++ variant_price v)
                 (variants p))
         ++ LF ++ "  Please provide a compelling product description that highlights key features, benefits, and unique selling points. Ensure the description is SEO-friendly and approximately 150-200 words long."
         ++ (if has_image p
             then " Use the provided image for additional context."
             else "")
    /\ ends_with " Use the provided image for additional context." prompt
       = has_image p
    /\ (product_title p = "Blue Mug" ->
        map (fun v => (variant_title v, variant_price v)) (variants p)
        = [("Default", "12.00")] ->
        featuredImage p = None ->
        contains "Title: Blue Mug" prompt = true
        /\ contains "Variants: Default - $12.00" prompt = true
        /\ contains " Use the provided image for additional context." prompt
           = false).
Proof.
  intros Hid Hact Hreply Hready.
  destruct (compose_request_ready _ world _ _ Hreply Hready)
    as (downloads & imageUrl & imageBase64 & Hcompose & Himage).
  rewrite (action_generate _ _ _ Hid Hact).
  eexists. exists (prompt_text (VStr (product_title p))
                     (map variant_line (variants p)) imageUrl).
  split; [exact (generate_sends_request _ _ _ _ _ Hcompose)|].
  split; [reflexivity|].
  split; [unfold prompt_text; rewrite Himage; reflexivity|].
  split; [rewrite <- Himage; apply prompt_ends_with_image_clause|].
  intros Htitle Hvariants Hnone.
  unfold prompt_text. rewrite Himage. unfold has_image. rewrite Hnone, Htitle.
  cbn [to_string].
  destruct (variants p) as [|v [|v' vs]]; cbn [map] in Hvariants;
    try discriminate.
  injection Hvariants as Hvt Hvp.
  cbn [map]. unfold variant_line. rewrite Hvt, Hvp.
  repeat split; vm_compute; reflexivity.
Qed.

Lemma prompt_follows_template_witness :
  exists body prompt,
    In (EFetch
          (messages_request
             (world_with (Throw (Failure "offline"))
                         (Ok (response_of 200 [] (Ok lovely_mug))))
             body))
      (fst (action (shop catalog)
              (world_with (Throw (Failure "offline"))
                          (Ok (response_of 200 [] (Ok lovely_mug))))
              (generate_form "gid://shopify/Product/1")))
    /\ prompt_of body = Some prompt
    /\ contains "Title: Blue Mug" prompt = true
    /\ contains "Variants: Default - $12.00" prompt = true
    /\ contains " Use the provided image for additional context." prompt
       = false.
Proof.
  destruct (prompt_follows_template (shop catalog)
              (world_with (Throw (Failure "offline"))
                          (Ok (response_of 200 [] (Ok lovely_mug))))
              (generate_form "gid://shopify/Product/1")
              (first_variants 5 blue_mug) eq_refl eq_refl eq_refl I)
    as (body & prompt & Hsent & Hprompt & _ & _ & Hmug).
  exists body, prompt.
  split; [exact Hsent|]. split; [exact Hprompt|].
  apply Hmug; reflexivity.
Defined.



(* ------------------------------------------------------------------ *)
(** ** More on [action]: what it answers and what escapes it *)

Lemma action_publish (admin : Admin) (world : World) (formData : FormData) :
  truthy (formData_get "productId" formData) = true ->
  is_string (formData_get "action" formData) "update" = true ->
  action admin world formData
  = publish admin (formData_get "productId" formData)
      (formData_get "description" formData).
Proof. intros Hid Hact. unfold action. rewrite Hid, Hact. reflexivity. Qed.

(** The update branch answers in one of two ways and never throws. *)
Lemma publish_replies (admin : Admin) (productId description : value) :
  exists logs r,
    publish admin productId description
    = (EGraphql (UpdateProductDescription productId description) :: logs, Ok r)
    /\ filter is_external_call logs = []
    /\ (r = update_error_reply
        \/ exists url,
             r = json (VObj [("success", VBool true);
                             ("onlineStoreUrl", url)]) 200).
Proof.
  unfold publish; run.
  destruct (graphql admin _) as [productData|e]; cbn [app]; [|eauto 7].
  destruct (member productData "data") as [data|e]; cbn [app]; [|eauto 7].
  destruct (member data "productUpdate") as [pu|e]; cbn [app]; [|eauto 7].
  destruct (member pu "product") as [product|e]; cbn [app]; [|eauto 7].
  destruct (member product "onlineStoreUrl") as [url|e]; cbn [app]; [|eauto 7].
  destruct (truthy url); cbn [app]; [eauto 7|].
  destruct (member product "onlineStorePreviewUrl"); cbn [app]; eauto 7.
Qed.

(** When the test of line 191 lets a reply through, the three reads
    behind it succeed and the text is truthy. *)
Lemma expected_format_path (aiResponseJson : value) :
  unexpected_format aiResponseJson = Ok false ->
  exists content first text,
    member aiResponseJson "content" = Ok content
    /\ element content 0 = Ok first
    /\ member first "text" = Ok text
    /\ truthy text = true.
Proof.
  unfold unexpected_format. intros H.
  destruct (member aiResponseJson "content") as [content|e] eqn:Hcontent;
    [|discriminate].
  destruct (truthy content); cbn [negb] in H; [|discriminate].
  destruct (element content 0) as [first|e] eqn:Hfirst; [|discriminate].
  destruct (truthy first); cbn [negb] in H; [|discriminate].
  destruct (member first "text") as [text|e] eqn:Htext; [|discriminate].
  exists content, first, text.
  split; [reflexivity|]. split; [exact Hfirst|]. split; [exact Htext|].
  destruct (truthy text); [reflexivity | discriminate].
Qed.

Lemma truthy_text_field_value (aiResponseJson : value) :
  truthy (text_field aiResponseJson) = true ->
  aiResponseJson <> VNull /\ aiResponseJson <> VUndefined.
Proof. intros H. split; intros ->; discriminate. Qed.

(** The generation call answers in one of three ways and never
    throws. *)
Lemma request_description_replies (world : World) (body : value) :
  exists logs r,
    request_description world body
    = (EFetch (messages_request world body) :: logs, Ok r)
    /\ filter is_external_call logs = []
    /\ (r = generation_error_reply
        \/ exists text,
             truthy text = true
             /\ r = json (VObj [("description", text)]) 200).
Proof.
  assert (Hfallback :
    exists text, truthy text = true
                 /\ fallback_reply = json (VObj [("description", text)]) 200).
  { exists (VStr placeholder_description). split; reflexivity. }
  unfold request_description; run.
  destruct (fetch world _) as [aiResponse|e]; cbn [app]; [|eauto 7].
  destruct (ok aiResponse); cbn [negb app]; [|eauto 7].
  destruct (json_body aiResponse) as [aiResponseJson|e]; cbn [app]; [|eauto 7].
  destruct (unexpected_format aiResponseJson) as [[|]|e] eqn:Hformat;
    cbn [app]; [eauto 7| |eauto 7].
  destruct (expected_format_path _ Hformat)
    as (content & first & text & -> & -> & -> & Htext).
  cbn [app]. eauto 8.
Qed.

(** Every reply of [action] has one of five shapes. *)
Lemma action_replies
    (admin : Admin) (world : World) (formData : FormData) (r : reply) :
  snd (action admin world formData) = Ok r ->
  r = validation_reply
  \/ r = update_error_reply
  \/ (exists url,
        r = json (VObj [("success", VBool true); ("onlineStoreUrl", url)]) 200)
  \/ r = generation_error_reply
  \/ (exists text,
        truthy text = true /\ r = json (VObj [("description", text)]) 200).
Proof.
  unfold action.
  destruct (truthy (formData_get "productId" formData)); cbn [negb].
  2:{ cbn. intros H. injection H as <-. auto. }
  destruct (is_string (formData_get "action" formData) "update").
  - destruct (publish_replies admin (formData_get "productId" formData)
                (formData_get "description" formData))
      as (logs & r' & -> & _ & Hr).
    cbn [snd]. intros H. injection H as <-.
    destruct Hr as [-> | Hr]; auto.
  - unfold generate, bind.
    destruct (compose_request admin world _) as [t [body|e]];
      [|cbn; discriminate].
    destruct (request_description_replies world body)
      as (logs & r' & -> & _ & Hr).
    cbn [snd]. intros H. injection H as <-.
    destruct Hr as [-> | Hr]; auto.
Qed.

Lemma optional_member_object (fields : list (string * value)) (k : string) :
  optional_member (VObj fields) k = assoc k fields.
Proof. reflexivity. Qed.

(** X1: whatever [action] answers is one envelope, and the page shows
    one banner for it.  The reply has status 200 exactly when it has no
    truthy [error]; of [error], [description] and [success] exactly one
    is truthy, so exactly one of the error, description and success
    banners is on screen. *)
Theorem reply_is_one_envelope
    (admin : Admin) (world : World) (formData : FormData) (r : reply) :
  snd (action admin world formData) = Ok r ->
  let data := reply_body r in
  (shows_error_banner data = negb (reply_status r =? 200)%Z)
  /\ (shows_error_banner data = true
      /\ shows_description_banner data = false
      /\ shows_success_banner data = false
      \/ shows_error_banner data = false
         /\ shows_description_banner data = true
         /\ shows_success_banner data = false
      \/ shows_error_banner data = false
         /\ shows_description_banner data = false
         /\ shows_success_banner data = true).
Proof.
  intros Hrun data. subst data.
  unfold shows_error_banner, shows_description_banner, shows_success_banner.
  destruct (action_replies _ _ _ _ Hrun)
    as [-> | [-> | [(url & ->) | [-> | (text & Htext & ->)]]]];
    cbn [reply_body reply_status json validation_reply update_error_reply
           generation_error_reply];
    rewrite ?optional_member_object;
    cbn [assoc String.eqb Ascii.eqb Bool.eqb truthy negb Z.eqb Pos.eqb];
    try rewrite Htext; auto 6.
Qed.

Lemma reply_is_one_envelope_witness :
  let r := json (VObj [("description", VStr "A lovely mug.")]) 200 in
  shows_error_banner (reply_body r) = negb (reply_status r =? 200)%Z
  /\ shows_description_banner (reply_body r) = true.
Proof.
  intros r.
  destruct (reply_is_one_envelope (shop catalog)
              (world_with (Throw (Failure "offline"))
                          (Ok (response_of 200 [] (Ok lovely_mug))))
              (generate_form "gid://shopify/Product/1") r eq_refl)
    as (Hstatus & _).
  split; [exact Hstatus | reflexivity].
Defined.

(** X2: a 2xx reply of the generation API whose [content[0].text] is
    there and truthy is answered with status 200 and exactly that value
    as [description]. *)
Theorem generated_text_returned
    (admin : Admin) (world : World) (formData : FormData)
    (t : list event) (body : value) (aiResponse : response)
    (aiResponseJson : value) :
  truthy (formData_get "productId" formData) = true ->
  is_string (formData_get "action" formData) "update" = false ->
  compose_request admin world (formData_get "productId" formData)
  = (t, Ok body) ->
  fetch world (messages_request world body) = Ok aiResponse ->
  ok aiResponse = true ->
  json_body aiResponse = Ok aiResponseJson ->
  truthy (text_field aiResponseJson) = true ->
  snd (action admin world formData)
  = Ok (json (VObj [("description", text_field aiResponseJson)]) 200).
Proof.
  intros Hid Hact Hcompose Hfetch Hok Hjson Htext.
  destruct (truthy_text_field_value _ Htext) as (Hnull & Hundef).
  pose proof (unexpected_format_text_field _ Hnull Hundef) as Hformat.
  rewrite Htext in Hformat. cbn [negb] in Hformat.
  destruct (expected_format_path _ Hformat)
    as (content & first & text & Hcontent & Hfirst & Hread & _).
  assert (Hfield : text_field aiResponseJson = text).
  { unfold text_field. rewrite Hcontent. cbn [read].
    rewrite Hfirst. cbn [read]. rewrite Hread. reflexivity. }
  rewrite (action_generate _ _ _ Hid Hact).
  unfold generate, bind. rewrite Hcompose.
  unfold request_description; run.
  rewrite Hfetch. cbn [app]. rewrite Hok. cbn [negb]. rewrite Hjson.
  cbn [app]. rewrite Hformat. cbn [app].
  rewrite Hcontent. cbn [app]. rewrite Hfirst. cbn [app]. rewrite Hread.
  cbn [app snd]. rewrite Hfield. reflexivity.
Qed.

Lemma generated_text_returned_witness :
  snd (action (shop catalog)
         (world_with (Throw (Failure "offline"))
                     (Ok (response_of 200 [] (Ok lovely_mug))))
         (generate_form "gid://shopify/Product/1"))
  = Ok (json (VObj [("description", text_field lovely_mug)]) 200)
  /\ text_field lovely_mug = VStr "A lovely mug.".
Proof.
  split; [|reflexivity].
  eapply (generated_text_returned (shop catalog)
            (world_with (Throw (Failure "offline"))
                        (Ok (response_of 200 [] (Ok lovely_mug))))
            (generate_form "gid://shopify/Product/1")).
  - reflexivity.
  - reflexivity.
  - reflexivity.
  - reflexivity.
  - reflexivity.
  - reflexivity.
  - reflexivity.
Defined.

(** X3: from line 64 on, that is once [authenticate.admin] and
    [request.formData] of lines 62-63 have given the client and the
    form, the only exceptions that leave [action] are those of the
    product lookup, of the reads of its reply and of the image
    download: [action] throws exactly when it is on the generate branch
    and the building of the request throws, and then neither a
    generation call nor a mutation has been made. *)
Theorem escaping_exceptions
    (admin : Admin) (world : World) (formData : FormData) (e : exn) :
  (snd (action admin world formData) = Throw e
   <-> truthy (formData_get "productId" formData) = true
       /\ is_string (formData_get "action" formData) "update" = false
       /\ snd (compose_request admin world (formData_get "productId" formData))
          = Throw e)
  /\ (snd (action admin world formData) = Throw e ->
      calls is_generation_call (action admin world formData) = 0
      /\ calls is_mutation (action admin world formData) = 0).
Proof.
  unfold action, calls.
  destruct (truthy (formData_get "productId" formData)); cbn [negb].
  2:{ cbn. split; [split|]; [discriminate | intros (H & _); discriminate
                             | discriminate]. }
  destruct (is_string (formData_get "action" formData) "update").
  { destruct (publish_shape admin (formData_get "productId" formData)
                (formData_get "description" formData))
      as (logs & r & -> & _).
    cbn [snd]. split; [split|]; [discriminate
                                | intros (_ & H & _); discriminate
                                | discriminate]. }
  destruct (compose_request_trace admin world
              (formData_get "productId" formData))
    as (rest & o & Hcompose & Hrest).
  destruct o as [body|e'].
  - destruct (generate_of_composed _ _ _ _ _ Hcompose) as (logs & r & -> & _).
    rewrite Hcompose. cbn [snd].
    split; [split|]; [discriminate | intros (_ & _ & H); discriminate
                      | discriminate].
  - rewrite (generate_of_failed _ _ _ _ _ Hcompose), Hcompose. cbn [snd fst].
    split; [split; [intros H; injection H as ->; auto
                    | intros (_ & _ & H); injection H as ->; reflexivity]|].
    intros _. destruct Hrest as [-> | (url & ->)]; split; reflexivity.
Qed.

Lemma escaping_exceptions_witness :
  calls is_generation_call
    (action (shop catalog)
       (world_with (Throw (Failure "ECONNRESET"))
                   (Ok (response_of 200 [] (Ok lovely_mug))))
       (generate_form "gid://shopify/Product/2")) = 0
  /\ calls is_mutation
       (action (shop catalog)
          (world_with (Throw (Failure "ECONNRESET"))
                      (Ok (response_of 200 [] (Ok lovely_mug))))
          (generate_form "gid://shopify/Product/2")) = 0.
Proof.
  exact (proj2 (escaping_exceptions (shop catalog)
                  (world_with (Throw (Failure "ECONNRESET"))
                              (Ok (response_of 200 [] (Ok lovely_mug))))
                  (generate_form "gid://shopify/Product/2")
                  (Failure "ECONNRESET")) eq_refl).
Defined.

(** X4: on the generate branch a reply comes back exactly when the
    generation API has been called, and it is then called once. *)
Theorem reply_iff_generation_call
    (admin : Admin) (world : World) (formData : FormData) :
  truthy (formData_get "productId" formData) = true ->
  is_string (formData_get "action" formData) "update" = false ->
  ((exists r, snd (action admin world formData) = Ok r)
   <-> calls is_generation_call (action admin world formData) = 1)
  /\ ((exists e, snd (action admin world formData) = Throw e)
      <-> calls is_generation_call (action admin world formData) = 0).
Proof.
  intros Hid Hact. rewrite (action_generate _ _ _ Hid Hact). unfold calls.
  destruct (compose_request_trace admin world
              (formData_get "productId" formData))
    as (rest & o & Hcompose & Hrest).
  pose proof (no_generation_call_before_request
                (ProductQuery (formData_get "productId" formData) 5) _ Hrest)
    as Hnone.
  destruct o as [body|e].
  - destruct (generate_of_composed _ _ _ _ _ Hcompose)
      as (logs & r & -> & Hlogs).
    cbn [fst snd]. rewrite filter_app, Hnone.
    change (filter is_generation_call
              (EFetch (messages_request world body) :: logs))
      with (EFetch (messages_request world body)
            :: filter is_generation_call logs).
    rewrite (no_call_in_logs _ _ generation_call_is_external Hlogs).
    cbn [app List.length].
    split; split; eauto; try discriminate.
    intros (e & H). discriminate.
  - rewrite (generate_of_failed _ _ _ _ _ Hcompose). cbn [fst snd].
    rewrite Hnone. cbn [List.length].
    split; split; eauto; try discriminate.
    intros (r & H). discriminate.
Qed.

Lemma reply_iff_generation_call_witness :
  calls is_generation_call
    (action (shop catalog)
       (world_with (Throw (Failure "offline"))
                   (Ok (response_of 503 [] (Throw (Failure "not JSON")))))
       (generate_form "gid://shopify/Product/1")) = 1.
Proof.
  apply (proj1 (reply_iff_generation_call (shop catalog)
                  (world_with (Throw (Failure "offline"))
                              (Ok (response_of 503 []
                                     (Throw (Failure "not JSON")))))
                  (generate_form "gid://shopify/Product/1")
                  eq_refl eq_refl)).
  eexists. reflexivity.
Defined.

(** X5: an update that fails upstream, the mutation call throwing or
    its reply carrying no product (an id the shop does not know), is
    answered with status 500 and the fixed
    [{error: "Failed to update product description"}]; the exception
    is written to the console and goes no further. *)
Theorem update_failure_is_generic_error
    (admin : Admin) (world : World) (formData : FormData) :
  truthy (formData_get "productId" formData) = true ->
  is_string (formData_get "action" formData) "update" = true ->
  let mutation :=
    UpdateProductDescription (formData_get "productId" formData)
      (formData_get "description" formData) in
  (forall e,
     graphql admin mutation = Throw e ->
     action admin world formData
     = ([EGraphql mutation; EConsoleError [LExn e]],
        Ok (json (VObj [("error",
                         VStr "Failed to update product description")]) 500)))
  /\ (graphql admin mutation = Ok (update_reply None) ->
      action admin world formData
      = ([EGraphql mutation; EConsoleError [LExn TypeError]],
         Ok (json (VObj [("error",
                          VStr "Failed to update product description")]) 500))).
Proof.
  intros Hid Hact mutation. subst mutation.
  rewrite (action_publish _ _ _ Hid Hact).
  split; [intros e Hfail | intros Hfail]; unfold publish; run;
    rewrite Hfail; reflexivity.
Qed.

Lemma update_failure_is_generic_error_witness :
  action (shop catalog)
    (world_with (Throw (Failure "offline")) (Throw (Failure "offline")))
    (update_form "gid://shopify/Product/404" "<p>text</p>")
  = ([EGraphql
        (UpdateProductDescription (VStr "gid://shopify/Product/404")
           (VStr "<p>text</p>"));
      EConsoleError [LExn TypeError]],
     Ok (json (VObj [("error", VStr "Failed to update product description")])
           500)).
Proof.
  exact (proj2 (update_failure_is_generic_error (shop catalog)
                  (world_with (Throw (Failure "offline"))
                              (Throw (Failure "offline")))
                  (update_form "gid://shopify/Product/404" "<p>text</p>")
                  eq_refl eq_refl) eq_refl).
Defined.

(** Whatever the product reply looks like, a request that gets built
    has an image part only if it has an image URL. *)
Lemma compose_request_body
    (admin : Admin) (world : World) (productId : value)
    (t : list event) (body : value) :
  compose_request admin world productId = (t, Ok body) ->
  exists productTitle lines imageUrl imageBase64,
    body = requestData productTitle lines imageUrl imageBase64
    /\ (truthy imageBase64 = true -> truthy imageUrl = true).
Proof.
  unfold compose_request; run.
  destruct (graphql admin _) as [productData|e]; cbn [app]; [|discriminate].
  destruct (member productData "data") as [data|e]; cbn [app]; [|discriminate].
  destruct (member data "product") as [product|e]; cbn [app]; [|discriminate].
  destruct (member product "title") as [title|e]; cbn [app]; [|discriminate].
  destruct (member product "variants") as [vs|e]; cbn [app]; [|discriminate].
  destruct (member vs "edges") as [edges|e]; cbn [app]; [|discriminate].
  destruct (array_map edges variant_entry) as [lines|e]; cbn [app];
    [|discriminate].
  destruct (member product "featuredImage") as [image|e]; cbn [app];
    [|discriminate].
  match goal with
  | |- context [match ?o with Ok _ => _ | Throw _ => _ end] =>
      destruct o as [imageUrl|e]; cbn [app]; [|discriminate]
  end.
  destruct (truthy imageUrl) eqn:Hurl; cbn [app].
  - destruct (fetch world _) as [imageResponse|e]; cbn [app]; [|discriminate].
    destruct (arrayBuffer imageResponse) as [bytes|e]; cbn [app];
      [|discriminate].
    intros H. injection H as _ <-.
    exists title, lines, imageUrl, (VStr (base64 bytes)). auto.
  - intros H. injection H as _ <-.
    exists title, lines, imageUrl, VUndefined. split; [reflexivity|].
    cbn. discriminate.
Qed.

Lemma requestData_parts
    (productTitle : value) (lines : list string) (imageUrl imageBase64 : value) :
  prompt_of (requestData productTitle lines imageUrl imageBase64)
  = Some (prompt_text productTitle lines imageUrl)
  /\ has_image_part (requestData productTitle lines imageUrl imageBase64)
     = truthy imageBase64.
Proof.
  split; [reflexivity|].
  unfold requestData, has_image_part.
  cbn [assoc String.eqb Ascii.eqb Bool.eqb].
  destruct (truthy imageBase64); reflexivity.
Qed.

(** X6: the request sent to the generation API never carries an image
    that its prompt does not announce: whenever the request has an image
    part, the prompt ends with the image clause.  This holds for every
    product reply, well-formed or not. *)
Theorem image_part_is_announced
    (admin : Admin) (world : World) (formData : FormData)
    (t : list event) (body : value) :
  truthy (formData_get "productId" formData) = true ->
  is_string (formData_get "action" formData) "update" = false ->
  compose_request admin world (formData_get "productId" formData)
  = (t, Ok body) ->
  In (EFetch (messages_request world body)) (fst (action admin world formData))
  /\ exists prompt,
       prompt_of body = Some prompt
       /\ (has_image_part body = true ->
           ends_with " Use the provided image for additional context." prompt
           = true).
Proof.
  intros Hid Hact Hcompose.
  rewrite (action_generate _ _ _ Hid Hact).
  split; [exact (generate_sends_request _ _ _ _ _ Hcompose)|].
  destruct (compose_request_body _ _ _ _ _ Hcompose)
    as (title & lines & imageUrl & imageBase64 & -> & Himage).
  destruct (requestData_parts title lines imageUrl imageBase64)
    as (Hprompt & Hpart).
  exists (prompt_text title lines imageUrl). split; [exact Hprompt|].
  rewrite Hpart. intros Hbase64.
  change (ends_with image_clause (prompt_text title lines imageUrl) = true).
  rewrite prompt_ends_with_image_clause. exact (Himage Hbase64).
Qed.

Lemma image_part_is_announced_witness :
  exists body prompt,
    In (EFetch
          (messages_request
             (world_with (Ok (response_of 200 jpeg (Throw (Failure "not JSON"))))
                         (Ok (response_of 200 [] (Ok lovely_mug))))
             body))
      (fst (action (shop catalog)
              (world_with (Ok (response_of 200 jpeg (Throw (Failure "not JSON"))))
                          (Ok (response_of 200 [] (Ok lovely_mug))))
              (generate_form "gid://shopify/Product/2")))
    /\ prompt_of body = Some prompt
    /\ has_image_part body = true
    /\ ends_with " Use the provided image for additional context." prompt
       = true.
Proof.
  destruct (image_part_is_announced (shop catalog)
              (world_with (Ok (response_of 200 jpeg (Throw (Failure "not JSON"))))
                          (Ok (response_of 200 [] (Ok lovely_mug))))
              (generate_form "gid://shopify/Product/2")
              _ _ eq_refl eq_refl eq_refl)
    as (Hsent & prompt & Hprompt & Hends).
  eexists. exists prompt.
  split; [exact Hsent|]. split; [exact Hprompt|].
  split; [reflexivity | apply Hends; reflexivity].
Defined.

(** X7: the converse fails on an empty download.  For a product with a
    featured image URL whose download comes back with an empty body,
    the prompt still ends with the image clause while the request has
    no image part. *)
Theorem empty_image_is_announced_but_missing
    (admin : Admin) (world : World) (formData : FormData) (p : Product)
    (url : string) (imageResponse : response) :
  truthy (formData_get "productId" formData) = true ->
  is_string (formData_get "action" formData) "update" = false ->
  graphql admin (ProductQuery (formData_get "productId" formData) 5)
  = Ok (product_reply (Some p)) ->
  featuredImage p = Some url ->
  url <> "" ->
  fetch world (GET url) = Ok imageResponse ->
  arrayBuffer imageResponse = Ok [] ->
  exists body prompt,
    In (EFetch (messages_request world body)) (fst (action admin world formData))
    /\ prompt_of body = Some prompt
    /\ ends_with " Use the provided image for additional context." prompt = true
    /\ has_image_part body = false.
Proof.
  intros Hid Hact Hreply Himage Hurl Hfetch Hbuffer.
  pose proof (compose_request_product _ world _ _ Hreply) as Hcompose.
  cbv zeta in Hcompose. rewrite Himage in Hcompose.
  apply String.eqb_neq in Hurl. rewrite Hurl, Hfetch, Hbuffer in Hcompose.
  rewrite (action_generate _ _ _ Hid Hact).
  eexists. eexists.
  split; [exact (generate_sends_request _ _ _ _ _ Hcompose)|].
  split; [reflexivity|].
  split.
  - change (ends_with image_clause
              (prompt_text (VStr (product_title p))
                 (map variant_line (variants p)) (VStr url)) = true).
    rewrite prompt_ends_with_image_clause. cbn [truthy]. rewrite Hurl.
    reflexivity.
  - reflexivity.
Qed.

Lemma empty_image_is_announced_but_missing_witness :
  exists body prompt,
    In (EFetch
          (messages_request
             (world_with (Ok (response_of 404 [] (Throw (Failure "not JSON"))))
                         (Ok (response_of 200 [] (Ok lovely_mug))))
             body))
      (fst (action (shop catalog)
              (world_with (Ok (response_of 404 [] (Throw (Failure "not JSON"))))
                          (Ok (response_of 200 [] (Ok lovely_mug))))
              (generate_form "gid://shopify/Product/2")))
    /\ prompt_of body = Some prompt
    /\ ends_with " Use the provided image for additional context." prompt = true
    /\ has_image_part body = false.
Proof.
  exact (empty_image_is_announced_but_missing (shop catalog)
           (world_with (Ok (response_of 404 [] (Throw (Failure "not JSON"))))
                       (Ok (response_of 200 [] (Ok lovely_mug))))
           (generate_form "gid://shopify/Product/2")
           (first_variants 5 red_shirt)
           "https://cdn.example/red-shirt.jpg"
           (response_of 404 [] (Throw (Failure "not JSON")))
           eq_refl eq_refl eq_refl eq_refl
           (fun H : "https://cdn.example/red-shirt.jpg" = "" =>
              match H in _ = s
                    return match s with EmptyString => False | _ => True end
              with eq_refl => I end)
           eq_refl eq_refl).
Defined.

(* ------------------------------------------------------------------ *)
(** ** More on [loader] *)

(** X8: [loader] has no error reply.  It asks the shop once; when the
    call throws, or when the reply has no [data] (as a reply that only
    reports errors), the exception leaves [loader]; whenever it does
    answer, the status is 200. *)
Theorem listing_failure_throws (admin : Admin) :
  (forall e,
     graphql admin (ProductsQuery 20 5) = Throw e ->
     loader admin = ([EGraphql (ProductsQuery 20 5)], Throw e))
  /\ (forall fields,
        graphql admin (ProductsQuery 20 5) = Ok (VObj fields) ->
        assoc "data" fields = VUndefined \/ assoc "data" fields = VNull ->
        loader admin = ([EGraphql (ProductsQuery 20 5)], Throw TypeError))
  /\ (forall r,
        snd (loader admin) = Ok r ->
        reply_status r = 200%Z
        /\ fst (loader admin) = [EGraphql (ProductsQuery 20 5)]).
Proof.
  unfold loader; run.
  split; [|split].
  - intros e ->. reflexivity.
  - intros fields -> Hdata. cbn [member app].
    destruct Hdata as [-> | ->]; reflexivity.
  - intros r.
    destruct (graphql admin _) as [responseJson|e]; cbn [app snd];
      [|discriminate].
    destruct (member responseJson "data") as [data|e]; cbn [app snd];
      [|discriminate].
    destruct (member data "products") as [products|e]; cbn [app snd];
      [|discriminate].
    destruct (member products "edges") as [edges|e]; cbn [app snd fst];
      [|discriminate].
    intros H. injection H as <-. split; reflexivity.
Qed.

Lemma listing_failure_throws_witness :
  loader {| graphql := fun _ =>
              Ok (VObj [("errors",
                         VArr [VObj [("message", VStr "Throttled")]])]) |}
  = ([EGraphql (ProductsQuery 20 5)], Throw TypeError).
Proof.
  apply (proj1 (proj2 (listing_failure_throws
                         {| graphql := fun _ =>
                              Ok (VObj [("errors",
                                         VArr [VObj [("message",
                                                      VStr "Throttled")]])]) |}))
           [("errors", VArr [VObj [("message", VStr "Throttled")]])]).
  - reflexivity.
  - left. reflexivity.
Defined.

(* ------------------------------------------------------------------ *)
(** ** The page *)

(** The replies of the two branches, seen from the page. *)
Lemma generate_reply_fields
    (admin : Admin) (world : World) (productId : value) (r : reply) :
  snd (generate admin world productId) = Ok r ->
  optional_member (reply_body r) "onlineStoreUrl" = VUndefined
  /\ (truthy (optional_member (reply_body r) "error") = true
      /\ optional_member (reply_body r) "description" = VUndefined
      \/ optional_member (reply_body r) "error" = VUndefined
         /\ truthy (optional_member (reply_body r) "description") = true).
Proof.
  unfold generate, bind.
  destruct (compose_request admin world productId) as [t [body|e]];
    [|cbn; discriminate].
  destruct (request_description_replies world body)
    as (logs & r' & -> & _ & Hr).
  cbn [snd]. intros H. injection H as <-.
  destruct Hr as [-> | (text & Htext & ->)].
  - split; [reflexivity|]. left. split; reflexivity.
  - split; [reflexivity|]. right. split; [reflexivity | exact Htext].
Qed.

Lemma publish_reply_fields
    (admin : Admin) (productId description : value) (r : reply) :
  snd (publish admin productId description) = Ok r ->
  optional_member (reply_body r) "description" = VUndefined
  /\ (reply_status r = 500%Z
      /\ truthy (optional_member (reply_body r) "error") = true
      /\ truthy (optional_member (reply_body r) "success") = false
      \/ reply_status r = 200%Z
         /\ truthy (optional_member (reply_body r) "error") = false
         /\ truthy (optional_member (reply_body r) "success") = true).
Proof.
  destruct (publish_replies admin productId description)
    as (logs & r' & -> & _ & Hr).
  cbn [snd]. intros H. injection H as <-.
  destruct Hr as [-> | (url & ->)].
  - split; [reflexivity|]. left. repeat split.
  - split; [reflexivity|]. right. repeat split.
Qed.

Lemma same_value_undefined (v : value) :
  same_value VUndefined v = true -> v = VUndefined.
Proof. destruct v; cbn; congruence. Qed.

(** The card of line 243 for a selection that is on the list. *)
Lemma details_of_listed (ps : list Product) (st : IndexState) (p : Product) :
  find_product ps (VStr (selectedProduct st)) = Some p ->
  exists details,
    selectedProductDetails (listed ps) st = Ok details
    /\ member (listed_product_edge p) "node" = Ok details
    /\ truthy details = true.
Proof.
  unfold find_product, selectedProductDetails, listed.
  induction ps as [|q ps IH]; cbn [find map array_find]; [discriminate|].
  unfold listed_product_edge at 1.
  cbn [member assoc String.eqb Ascii.eqb Bool.eqb is_string].
  rewrite (String.eqb_sym (product_id q) (selectedProduct st)).
  destruct (selectedProduct st =? product_id q)%string.
  - intros H. injection H as <-. eexists. repeat split.
  - exact IH.
Qed.

(** X9: the product list and the card of the selected product are
    never on screen together, and as long as the selected product is
    on the list exactly one of the two is. *)
Theorem list_and_card_exclusive
    (ps : list Product) (st : IndexState) (data : value) :
  (forall details,
     shows_product_list st data && shows_detail_card st data details = false)
  /\ (forall p,
        find_product ps (VStr (selectedProduct st)) = Some p ->
        exists details,
          selectedProductDetails (listed ps) st = Ok details
          /\ xorb (shows_product_list st data)
               (shows_detail_card st data details) = true).
Proof.
  split.
  - intros details. unfold shows_product_list, shows_detail_card.
    destruct (isGeneratingDescription st),
      (truthy (optional_member data "description")), (truthy details);
      reflexivity.
  - intros p Hfound.
    destruct (details_of_listed ps st p Hfound) as (details & Hdetails & _ & Ht).
    exists details. split; [exact Hdetails|].
    unfold shows_product_list, shows_detail_card. rewrite Ht.
    destruct (isGeneratingDescription st),
      (truthy (optional_member data "description")); reflexivity.
Qed.

Lemma list_and_card_exclusive_witness :
  exists details,
    selectedProductDetails (listed catalog)
      (handleProductSelect "gid://shopify/Product/2" initial_state)
    = Ok details
    /\ xorb (shows_product_list
               (handleProductSelect "gid://shopify/Product/2" initial_state)
               VUndefined)
         (shows_detail_card
            (handleProductSelect "gid://shopify/Product/2" initial_state)
            VUndefined details) = true.
Proof.
  exact (proj2 (list_and_card_exclusive catalog
                  (handleProductSelect "gid://shopify/Product/2" initial_state)
                  VUndefined) red_shirt eq_refl).
Defined.

(** X10: "Select Another Product" does nothing.  The button is only on
    screen in the review part of the card, and there a click leaves
    the state as it is: the card stays and the product list does not
    come back. *)
Theorem select_another_changes_nothing
    (st : IndexState) (data details : value) :
  shows_review st data details = true ->
  select_another_click st = st
  /\ shows_review (select_another_click st) data details = true
  /\ shows_product_list (select_another_click st) data = false.
Proof.
  unfold shows_review, shows_detail_card, shows_product_list,
    select_another_click.
  destruct st as [selected modal generating]. cbn.
  destruct generating; cbn; [rewrite andb_false_r; discriminate|].
  destruct (truthy (optional_member data "description")); cbn;
    [|discriminate].
  intros ->. repeat split.
Qed.

Lemma select_another_changes_nothing_witness :
  let st := {| selectedProduct := "gid://shopify/Product/1";
               isModalOpen := false;
               isGeneratingDescription := false |} in
  let data := VObj [("description", VStr "A lovely mug.")] in
  select_another_click st = st
  /\ shows_product_list (select_another_click st) data = false.
Proof.
  intros st data.
  destruct (select_another_changes_nothing st data (VObj [("id", VStr "x")])
              eq_refl) as (Hsame & _ & Hlist).
  split; assumption.
Defined.

(** X11: a reply of the generate branch that changes what the effect
    watches ends the spinner; in particular the first reply to reach
    the page (nothing was there before) always does. *)
Theorem generation_reply_ends_spinner
    (admin : Admin) (world : World) (formData : FormData) (r : reply)
    (previous : value) (st : IndexState) :
  truthy (formData_get "productId" formData) = true ->
  is_string (formData_get "action" formData) "update" = false ->
  snd (action admin world formData) = Ok r ->
  (dependencies_changed previous (reply_body r) = true ->
   isGeneratingDescription (receive previous (reply_body r) st) = false)
  /\ isGeneratingDescription (receive VUndefined (reply_body r) st) = false.
Proof.
  intros Hid Hact Hrun. rewrite (action_generate _ _ _ Hid Hact) in Hrun.
  destruct (generate_reply_fields _ _ _ _ Hrun) as (_ & Hfields).
  assert (Hbody : forall st', isGeneratingDescription
                                (effect_body (reply_body r) st') = false).
  { intros st'. unfold effect_body.
    destruct Hfields as [(He & _) | (_ & Hd)].
    - rewrite He. reflexivity.
    - rewrite Hd, orb_true_r. reflexivity. }
  assert (Hfirst : dependencies_changed VUndefined (reply_body r) = true).
  { unfold dependencies_changed. cbn [optional_member].
    destruct (same_value VUndefined (optional_member (reply_body r) "error"))
      eqn:He; [|reflexivity].
    destruct (same_value VUndefined
                (optional_member (reply_body r) "description")) eqn:Hd;
      [|reflexivity].
    apply same_value_undefined in He, Hd.
    destruct Hfields as [(Herr & _) | (_ & Hdesc)].
    - rewrite He in Herr. discriminate.
    - rewrite Hd in Hdesc. discriminate. }
  split.
  - intros Hchanged. unfold receive. rewrite Hchanged. apply Hbody.
  - unfold receive. rewrite Hfirst. apply Hbody.
Qed.

Lemma generation_reply_ends_spinner_witness :
  isGeneratingDescription
    (receive VUndefined
       (reply_body (json (VObj [("description", VStr "A lovely mug.")]) 200))
       (fst (generateDescription "gid://shopify/Product/1"
               (handleProductSelect "gid://shopify/Product/1" initial_state))))
  = false.
Proof.
  exact (proj2 (generation_reply_ends_spinner (shop catalog)
                  (world_with (Throw (Failure "offline"))
                              (Ok (response_of 200 [] (Ok lovely_mug))))
                  (generate_form "gid://shopify/Product/1")
                  (json (VObj [("description", VStr "A lovely mug.")]) 200)
                  VUndefined
                  (fst (generateDescription "gid://shopify/Product/1"
                          (handleProductSelect "gid://shopify/Product/1"
                             initial_state)))
                  eq_refl eq_refl eq_refl)).
Defined.

(** X12: a reply that repeats the error and the description already on
    the page leaves the spinner on.  After "Regenerate", when the new
    [fetcher.data] has the same [error] and [description] as the old
    one, the effect does not run: the state stays "generating", the
    spinner is shown in place of the review part, and the product list
    stays hidden. *)
Theorem repeated_reply_keeps_spinner
    (st : IndexState) (previous current details : value) :
  dependencies_changed previous current = false ->
  truthy details = true ->
  let st' := receive previous current (fst (regenerate_click st)) in
  isGeneratingDescription st' = true
  /\ shows_spinner st' current details = true
  /\ shows_review st' current details = false
  /\ shows_product_list st' current = false.
Proof.
  intros Hsame Hdetails st'. subst st'. unfold receive. rewrite Hsame.
  unfold regenerate_click, generateDescription, shows_spinner, shows_review,
    shows_detail_card, shows_product_list.
  cbn [fst isGeneratingDescription orb negb andb].
  rewrite Hdetails. repeat split.
Qed.

Lemma repeated_reply_keeps_spinner_witness :
  let world := world_with (Throw (Failure "offline"))
                 (Ok (response_of 529 [] (Throw (Failure "not JSON")))) in
  let st := {| selectedProduct := "gid://shopify/Product/1";
               isModalOpen := false;
               isGeneratingDescription := false |} in
  snd (action (shop catalog) world (snd (regenerate_click st)))
  = Ok fallback_reply
  /\ isGeneratingDescription
       (receive (reply_body fallback_reply) (reply_body fallback_reply)
          (fst (regenerate_click st))) = true
  /\ shows_product_list
       (receive (reply_body fallback_reply) (reply_body fallback_reply)
          (fst (regenerate_click st)))
       (reply_body fallback_reply) = false.
Proof.
  intros world st. split; [reflexivity|].
  destruct (repeated_reply_keeps_spinner st (reply_body fallback_reply)
              (reply_body fallback_reply) (VObj [("id", VStr "x")])
              eq_refl eq_refl) as (Hflag & _ & _ & Hlist).
  split; assumption.
Defined.

(** X13: "Use This Description" writes what the page holds.  With a
    product selected, the click submits an update whose one outbound
    call is the mutation for that product id, carrying the description
    of [fetcher.data] character for character when it is a string, the
    canned placeholder included. *)
Theorem shown_description_is_published
    (admin : Admin) (world : World) (data : value) (st : IndexState)
    (description : string) :
  selectedProduct st <> "" ->
  optional_member data "description" = VStr description ->
  exists logs r,
    action admin world (snd (use_description_click data st))
    = (EGraphql
         (UpdateProductDescription (VStr (selectedProduct st))
            (VStr description)) :: logs,
       Ok r)
    /\ filter is_external_call logs = [].
Proof.
  intros Hselected Hdescription.
  unfold use_description_click, updateDescription. rewrite Hdescription.
  cbn [snd].
  assert (Hid : truthy (formData_get "productId"
                          [("productId", selectedProduct st);
                           ("description",
                            to_string (or_else (VStr description) (VStr "")));
                           ("action", "update")]) = true).
  { cbn. apply String.eqb_neq in Hselected. rewrite Hselected. reflexivity. }
  rewrite (action_publish _ _ _ Hid eq_refl).
  cbn [formData_get String.eqb Ascii.eqb Bool.eqb].
  replace (to_string (or_else (VStr description) (VStr ""))) with description.
  - apply publish_shape.
  - unfold or_else. cbn [truthy].
    destruct (description =? "")%string eqn:Hempty; cbn [negb to_string];
      [|reflexivity].
    apply String.eqb_eq in Hempty. exact Hempty.
Qed.

Lemma shown_description_is_published_witness :
  exists logs r,
    action (shop catalog)
      (world_with (Throw (Failure "offline")) (Throw (Failure "offline")))
      (snd (use_description_click (reply_body fallback_reply)
              {| selectedProduct := "gid://shopify/Product/1";
                 isModalOpen := false;
                 isGeneratingDescription := false |}))
    = (EGraphql
         (UpdateProductDescription (VStr "gid://shopify/Product/1")
            (VStr "Failed to generate description. Let`s try use this one for demo purposes."))
         :: logs, Ok r)
    /\ filter is_external_call logs = [].
Proof.
  exact (shown_description_is_published (shop catalog)
           (world_with (Throw (Failure "offline")) (Throw (Failure "offline")))
           (reply_body fallback_reply)
           {| selectedProduct := "gid://shopify/Product/1";
              isModalOpen := false;
              isGeneratingDescription := false |}
           "Failed to generate description. Let`s try use this one for demo purposes."
           (fun H : "gid://shopify/Product/1" = "" =>
              match H in _ = s
                    return match s with EmptyString => False | _ => True end
              with eq_refl => I end)
           eq_refl).
Defined.

(** X14: the "View in Store" button of the review part can never show.
    The review part needs a description in [fetcher.data], the button
    an [onlineStoreUrl], and no reply of [action] has both; before any
    reply there is neither. *)
Theorem store_button_never_shown
    (admin : Admin) (world : World) (formData : FormData) (r : reply)
    (st : IndexState) (details : value) :
  snd (action admin world formData) = Ok r ->
  shows_store_button st (reply_body r) details = false
  /\ shows_store_button st VUndefined details = false.
Proof.
  intros Hrun. unfold shows_store_button, shows_review, shows_detail_card.
  split.
  - destruct (action_replies _ _ _ _ Hrun)
      as [-> | [-> | [(url & ->) | [-> | (text & Htext & ->)]]]];
      cbn [reply_body json validation_reply update_error_reply
             generation_error_reply];
      rewrite ?optional_member_object;
      cbn [assoc String.eqb Ascii.eqb Bool.eqb truthy];
      destruct (isGeneratingDescription st), (truthy details);
      cbn; rewrite ?andb_false_r; reflexivity.
  - cbn [optional_member truthy].
    destruct (isGeneratingDescription st), (truthy details); reflexivity.
Qed.

Lemma store_button_never_shown_witness :
  shows_store_button
    {| selectedProduct := "gid://shopify/Product/2";
       isModalOpen := false;
       isGeneratingDescription := false |}
    (VObj [("success", VBool true);
           ("onlineStoreUrl",
            VStr "https://shop.example/products/red-shirt")])
    (VObj [("id", VStr "gid://shopify/Product/2")]) = false.
Proof.
  exact (proj1 (store_button_never_shown (shop catalog)
                  (world_with (Throw (Failure "offline"))
                              (Throw (Failure "offline")))
                  (update_form "gid://shopify/Product/2" "<p>New text</p>")
                  (json (VObj [("success", VBool true);
                               ("onlineStoreUrl",
                                VStr "https://shop.example/products/red-shirt")])
                     200)
                  {| selectedProduct := "gid://shopify/Product/2";
                     isModalOpen := false;
                     isGeneratingDescription := false |}
                  (VObj [("id", VStr "gid://shopify/Product/2")])
                  eq_refl)).
Defined.

(** X15: every reply to an update takes the page back to the product
    list.  Coming from the review part, the state is unchanged, the
    reply has no description, so the card with the generated text goes
    and the list shows, under the success banner for status 200 and
    under the error banner otherwise. *)
Theorem update_reply_returns_to_list
    (admin : Admin) (world : World) (formData : FormData) (r : reply)
    (st : IndexState) (previous details : value) :
  truthy (formData_get "productId" formData) = true ->
  is_string (formData_get "action" formData) "update" = true ->
  snd (action admin world formData) = Ok r ->
  isGeneratingDescription st = false ->
  let st' := receive previous (reply_body r) st in
  st' = st
  /\ shows_product_list st' (reply_body r) = true
  /\ shows_detail_card st' (reply_body r) details = false
  /\ shows_success_banner (reply_body r) = (reply_status r =? 200)%Z
  /\ shows_error_banner (reply_body r) = negb (reply_status r =? 200)%Z.
Proof.
  intros Hid Hact Hrun Hidle st'.
  rewrite (action_publish _ _ _ Hid Hact) in Hrun.
  destruct (publish_reply_fields _ _ _ _ Hrun) as (Hdescription & Hkind).
  assert (Hsame : st' = st).
  { subst st'. unfold receive, effect_body.
    destruct st as [selected modal generating]. cbn in Hidle. subst generating.
    destruct (dependencies_changed previous (reply_body r)); [|reflexivity].
    destruct (truthy (optional_member (reply_body r) "error")
              || truthy (optional_member (reply_body r) "description"));
      reflexivity. }
  rewrite Hsame.
  unfold shows_product_list, shows_detail_card, shows_success_banner,
    shows_error_banner.
  rewrite Hidle, Hdescription. cbn [truthy negb orb andb].
  split; [reflexivity|]. split; [reflexivity|]. split; [reflexivity|].
  destruct Hkind as [(-> & -> & ->) | (-> & -> & ->)]; split; reflexivity.
Qed.

Lemma update_reply_returns_to_list_witness :
  let st := {| selectedProduct := "gid://shopify/Product/404";
               isModalOpen := false;
               isGeneratingDescription := false |} in
  let r := json (VObj [("error", VStr "Failed to update product description")])
             500 in
  shows_product_list
    (receive (VObj [("description", VStr "A lovely mug.")]) (reply_body r) st)
    (reply_body r) = true
  /\ shows_error_banner (reply_body r) = true.
Proof.
  intros st r.
  destruct (update_reply_returns_to_list (shop catalog)
              (world_with (Throw (Failure "offline"))
                          (Throw (Failure "offline")))
              (update_form "gid://shopify/Product/404" "A lovely mug.")
              r st (VObj [("description", VStr "A lovely mug.")]) VNull
              eq_refl eq_refl eq_refl eq_refl)
    as (_ & Hlist & _ & _ & Herror).
  split; [exact Hlist | exact Herror].
Defined.

(** X16: picking a product from the list and confirming in the modal
    starts a generation for that product.  The form submitted names the
    product picked with action "generate", [action] runs its generate
    branch on that id, the modal is closed, and the page shows the
    spinner of that product in place of the list. *)
Theorem pick_and_confirm_generates
    (admin : Admin) (world : World) (ps : list Product) (p : Product)
    (id : string) (st : IndexState) (data : value) :
  id <> "" ->
  find_product ps (VStr id) = Some p ->
  let picked := handleProductSelect id st in
  let st' := fst (regenerate_click picked) in
  let form := snd (regenerate_click picked) in
  isModalOpen picked = true
  /\ form = [("productId", id); ("action", "generate")]
  /\ action admin world form = generate admin world (VStr id)
  /\ isModalOpen st' = false
  /\ shows_product_list st' data = false
  /\ exists details,
       selectedProductDetails (listed ps) st' = Ok details
       /\ member (listed_product_edge p) "node" = Ok details
       /\ shows_spinner st' data details = true.
Proof.
  intros Hid Hfound picked st' form. subst picked st' form.
  cbn [handleProductSelect regenerate_click generateDescription fst snd
         selectedProduct isModalOpen].
  split; [reflexivity|]. split; [reflexivity|].
  split.
  { apply action_generate; cbn.
    - apply String.eqb_neq in Hid. rewrite Hid. reflexivity.
    - reflexivity. }
  split; [reflexivity|]. split; [reflexivity|].
  destruct (details_of_listed ps
              {| selectedProduct := id;
                 isModalOpen := false;
                 isGeneratingDescription := true |} p Hfound)
    as (details & Hdetails & Hnode & Htruthy).
  exists details. split; [exact Hdetails|]. split; [exact Hnode|].
  unfold shows_spinner, shows_detail_card.
  cbn [isGeneratingDescription orb]. rewrite Htruthy. reflexivity.
Qed.

Lemma pick_and_confirm_generates_witness :
  action (shop catalog)
    (world_with (Throw (Failure "offline")) (Throw (Failure "offline")))
    (snd (regenerate_click
            (handleProductSelect "gid://shopify/Product/1" initial_state)))
  = generate (shop catalog)
      (world_with (Throw (Failure "offline")) (Throw (Failure "offline")))
      (VStr "gid://shopify/Product/1")
  /\ shows_product_list
       (fst (regenerate_click
               (handleProductSelect "gid://shopify/Product/1" initial_state)))
       VUndefined = false.
Proof.
  destruct (pick_and_confirm_generates (shop catalog)
              (world_with (Throw (Failure "offline"))
                          (Throw (Failure "offline")))
              catalog blue_mug "gid://shopify/Product/1" initial_state
              VUndefined
              (fun H : "gid://shopify/Product/1" = "" =>
                 match H in _ = s
                       return match s with EmptyString => False | _ => True end
                 with eq_refl => I end)
              eq_refl)
    as (_ & _ & Hrun & _ & Hlist & _).
  split; [exact Hrun | exact Hlist].
Defined.
